(** * vtb-dms: the clinic list parser, the geocode client and the dispatcher

    A shallow embedding of [gen_points.go] and of its sibling variant (the
    second source file of the repository, here [Variant]): the line parser,
    [isSection], [doGeocodeClinic] and the bounded fan-out of [main].

    Go strings are byte sequences: they are [string]s here, one [ascii] per
    byte.  Code that can panic at run time (an index out of range) returns
    a [go] value; pointers into the global [clinics] slice are positions in
    a list of [Clinic] values. *)

From Stdlib Require Import String Ascii List ZArith Bool Arith Lia.
From Stdlib Require Import Floats.SpecFloat.
Import ListNotations.

Local Open Scope string_scope.
Local Open Scope list_scope.
Local Open Scope nat_scope.

(** ** The Go run time: panics *)

Inductive go (A : Type) : Type :=
| Ok (a : A)
| Panic (msg : string).
Arguments Ok {A} a.
Arguments Panic {A} msg.

Definition bind {A B} (m : go A) (k : A -> go B) : go B :=
  match m with
  | Ok a => k a
  | Panic msg => Panic msg
  end.

Notation "x <- m ;; k" := (bind m (fun x => k))
  (at level 61, m at next level, right associativity).

(** [s[i]]: the byte at position [i], a run-time panic out of range. *)
Definition index (s : string) (i : nat) : go ascii :=
  match String.get i s with
  | Some b => Ok b
  | None => Panic "index out of range"
  end.

(** ** The library functions the program calls *)

Module unicode.

(** [unicode.IsNumber(rune(b))] for a byte [b]: the code point is below 256,
    where the numbers are the digits, the superscripts 1, 2, 3 and the three
    vulgar fractions. *)
Definition IsNumber (b : ascii) : bool :=
  let n := nat_of_ascii b in
  ((48 <=? n) && (n <=? 57))
  || (n =? 178) || (n =? 179) || (n =? 185)
  || (n =? 188) || (n =? 189) || (n =? 190).

End unicode.

Module strings.

(** The length in bytes of the white space rune (in UTF-8) that starts the
    byte list, [0] when it starts with none.  White space is what
    [unicode.IsSpace] accepts: tab, LF, VT, FF, CR, space, U+0085, U+00A0,
    U+1680, U+2000 to U+200A, U+2028, U+2029, U+202F, U+205F, U+3000. *)
Definition space_prefix (l : list nat) : nat :=
  match l with
  | 9 :: _ | 10 :: _ | 11 :: _ | 12 :: _ | 13 :: _ | 32 :: _ => 1
  | 194 :: 133 :: _ | 194 :: 160 :: _ => 2
  | 225 :: 154 :: 128 :: _ => 3
  | 226 :: 128 :: c :: _ =>
      if ((128 <=? c) && (c <=? 138)) || (c =? 168) || (c =? 169) || (c =? 175)
      then 3 else 0
  | 226 :: 129 :: 159 :: _ => 3
  | 227 :: 128 :: 128 :: _ => 3
  | _ => 0
  end.

(** The same for the rune that ends the byte list, given reversed. *)
Definition space_suffix (r : list nat) : nat :=
  match r with
  | 9 :: _ | 10 :: _ | 11 :: _ | 12 :: _ | 13 :: _ | 32 :: _ => 1
  | 133 :: 194 :: _ | 160 :: 194 :: _ => 2
  | 128 :: 154 :: 225 :: _ => 3
  | 159 :: 129 :: 226 :: _ => 3
  | 128 :: 128 :: 227 :: _ => 3
  | c :: 128 :: 226 :: _ =>
      if ((128 <=? c) && (c <=? 138)) || (c =? 168) || (c =? 169) || (c =? 175)
      then 3 else 0
  | _ => 0
  end.

Fixpoint drop_left (fuel : nat) (l : list ascii) : list ascii :=
  match fuel with
  | O => l
  | S fuel' =>
      match space_prefix (map nat_of_ascii l) with
      | O => l
      | k => drop_left fuel' (skipn k l)
      end
  end.

Fixpoint drop_right (fuel : nat) (r : list ascii) : list ascii :=
  match fuel with
  | O => r
  | S fuel' =>
      match space_suffix (map nat_of_ascii r) with
      | O => r
      | k => drop_right fuel' (skipn k r)
      end
  end.

(** [strings.TrimSpace]: leading and trailing white space removed. *)
Definition TrimSpace (s : string) : string :=
  let l := drop_left (String.length s) (list_ascii_of_string s) in
  string_of_list_ascii (rev (drop_right (List.length l) (rev l))).

(** [strings.SplitN(s, " ", 2)]: cut at the first space, if there is one. *)
Fixpoint cut_space (s : string) : option (string * string) :=
  match s with
  | EmptyString => None
  | String c rest =>
      if Ascii.eqb c " "%char then Some (EmptyString, rest)
      else match cut_space rest with
           | Some (a, b) => Some (String c a, b)
           | None => None
           end
  end.

Definition SplitN_space_2 (s : string) : list string :=
  match cut_space s with
  | Some (a, b) => [a; b]
  | None => [s]
  end.

End strings.

Module bufio.

(** A [bufio.Scanner] with the default split function, by what it still has
    to deliver: the lines [Scan] will yield, and the error [Err] reports
    once they are used up. *)
Record Scanner : Type := mkScanner {
  tokens : list string;
  err : option string
}.

Definition MaxScanTokenSize : nat := 64 * 1024.

Definition dropCR (l : list ascii) : list ascii :=
  match rev l with
  | c :: r => if Ascii.eqb c "013"%char then rev r else l
  | [] => l
  end.

(** [ScanLines] over the whole text: [cur] is the line being read, in
    reverse.  A line that does not fit the buffer stops the scan with
    [ErrTooLong]; an empty line at the end of the text is no line. *)
Fixpoint scan_lines (text : list ascii) (cur : list ascii) : list string * option string :=
  match text with
  | [] =>
      match cur with
      | [] => ([], None)
      | _ =>
          if MaxScanTokenSize <=? List.length cur
          then ([], Some "bufio.Scanner: token too long")
          else ([string_of_list_ascii (dropCR (rev cur))], None)
      end
  | c :: rest =>
      if Ascii.eqb c "010"%char then
        if MaxScanTokenSize <=? List.length cur
        then ([], Some "bufio.Scanner: token too long")
        else let (ls, e) := scan_lines rest [] in
             (string_of_list_ascii (dropCR (rev cur)) :: ls, e)
      else scan_lines rest (c :: cur)
  end.

(** [bufio.NewScanner(f)] for a reader that delivers [text] and then EOF. *)
Definition NewScanner (text : string) : Scanner :=
  let (ls, e) := scan_lines (list_ascii_of_string text) [] in
  mkScanner ls e.

End bufio.

(** ** Floating point values *)

(** A [float64] value: sign, mantissa and binary exponent, or zero,
    infinity, NaN. *)
Definition float64 : Type := spec_float.

Module strconv.

Fixpoint pow10 (k : nat) : positive :=
  match k with
  | O => 1%positive
  | S k' => (10 * pow10 k')%positive
  end.

(** The value [(-1)^neg * m / 10^k] rounded to the nearest binary32 value
    (ties to even) and held as a [float64], which represents it exactly.
    [None] when it is out of the binary32 range. *)
Definition round32 (neg : bool) (m : N) (k : nat) : option float64 :=
  match m with
  | N0 => Some (S754_zero neg)
  | Npos p =>
      match SFdiv 24 128 (S754_finite neg p 0) (S754_finite false (pow10 k) 0) with
      | S754_finite s m' e => Some (binary_normalize 53 1024 (cond_Zopp s (Zpos m')) e s)
      | S754_zero s => Some (S754_zero s)
      | _ => None
      end
  end.

(** The same at the precision of [float64]: the value of a decimal literal
    of the Go language. *)
Definition round64 (neg : bool) (m : N) (k : nat) : option float64 :=
  match m with
  | N0 => Some (S754_zero neg)
  | Npos p =>
      match SFdiv 53 1024 (S754_finite neg p 0) (S754_finite false (pow10 k) 0) with
      | S754_infinity _ | S754_nan => None
      | f => Some f
      end
  end.

Definition digit (c : ascii) : option N :=
  let n := nat_of_ascii c in
  if (48 <=? n) && (n <=? 57) then Some (N.of_nat (n - 48)) else None.

(** Reads [digits] or [digits.digits]: the digits as a number, how many
    were read, and how many of them after the point ([None] before it). *)
Fixpoint read_digits (s : string) (m : N) (count : nat) (frac : option nat)
  : option (N * nat * nat) :=
  match s with
  | EmptyString =>
      match count with
      | O => None
      | _ => Some (m, count, match frac with Some k => k | None => 0 end)
      end
  | String c rest =>
      match digit c with
      | Some d =>
          read_digits rest (10 * m + d)%N (S count)
            (match frac with Some k => Some (S k) | None => None end)
      | None =>
          if Ascii.eqb c "."%char then
            match frac with
            | None => read_digits rest m count (Some 0)
            | Some _ => None
            end
          else None
      end
  end.

(** [strconv.ParseFloat(s, 32)] on plain decimal literals, an optional sign
    and digits with at most one point: the nearest binary32 value, as a
    [float64].  Exponents, hexadecimal literals, underscores, infinities and
    NaN are not read by this function, which reports them as syntax
    errors. *)
Definition ParseFloat32 (s : string) : string + float64 :=
  let '(neg, body) :=
    match s with
    | String "-"%char r => (true, r)
    | String "+"%char r => (false, r)
    | _ => (false, s)
    end in
  match read_digits body 0%N 0 None with
  | None => inl "strconv.ParseFloat: invalid syntax"
  | Some (m, _, k) =>
      match round32 neg m k with
      | Some f => inr f
      | None => inl "strconv.ParseFloat: value out of range"
      end
  end.

End strconv.

Module url.

Definition hex_digit (n : nat) : ascii :=
  match String.get n "0123456789ABCDEF" with
  | Some c => c
  | None => "0"%char
  end.

(** A byte [url.QueryEscape] leaves as it is: a letter, a digit, or one of
    [-], [_], [.], [~]. *)
Definition unreserved (c : ascii) : bool :=
  let n := nat_of_ascii c in
  ((48 <=? n) && (n <=? 57)) || ((65 <=? n) && (n <=? 90))
  || ((97 <=? n) && (n <=? 122))
  || (n =? 45) || (n =? 95) || (n =? 46) || (n =? 126).

(** [url.QueryEscape]: a space becomes [+], any other byte that is not
    unreserved becomes [%XX]. *)
Fixpoint QueryEscape (s : string) : string :=
  match s with
  | EmptyString => EmptyString
  | String c rest =>
      if unreserved c then String c (QueryEscape rest)
      else if Ascii.eqb c " "%char then String "+"%char (QueryEscape rest)
      else
        let n := nat_of_ascii c in
        String "%"%char
          (String (hex_digit (n / 16)) (String (hex_digit (n mod 16)) (QueryEscape rest)))
  end.

End url.

(** ** What the geocoder sends back *)

(** [geoObject]; [Text] is [MetaDataProperty.GeocoderMetaData.Text] and
    [Pos] is [Point.Pos]. *)
Record geoObject : Type := mkGeoObject {
  geo_Name : string;
  Description : string;
  Text : string;
  Pos : string
}.

(** [geocodeResponse]; [FeatureMember] is
    [Response.GeoObjectCollection.FeatureMember], each member by its
    [GeoObject]. *)
Record geocodeResponse : Type := mkGeocodeResponse {
  FeatureMember : list geoObject
}.

(** [*http.Response], by what the program reads of it. *)
Record Response : Type := mkResponse {
  StatusCode : Z;
  Status : string;
  Body : string
}.

Definition StatusOK : Z := 200.

(** The errors [doGeocodeClinic] returns: those it makes with [fmt.Errorf]
    and those a library call handed to it. *)
Inductive error : Type :=
| ErrNoRawAddress                          (* "no raw address in clinic: %+v" *)
| ErrBadStatus (status body : string)      (* "bad response status: %s, %s" *)
| ErrNoGeoObject (r : geocodeResponse)     (* "no geoobject in response: %+v" *)
| ErrBadPoints (pos : string)              (* "bad points in response: %s" *)
| ErrLib (msg : string).

(** The world around the program: the network behind [http.Get], and the
    library functions taken as they are (the JSON decoder for
    [geocodeResponse], [strconv.ParseFloat] at 32 bits). *)
Class Platform : Type := {
  http_Get : string -> string + Response;
  json_Decode : string -> string + geocodeResponse;
  ParseFloat : string -> string + float64
}.

(** [u.String()] for [geocoderAPI] with the query [vals.Encode()], which
    lists the keys in sorted order. *)
Definition geocode_url (address : string) : string :=
  String.concat ""
    ["https://geocode-maps.yandex.ru/1.x/?";
     "format="; url.QueryEscape "json";
     "&geocode="; url.QueryEscape address;
     "&kind="; url.QueryEscape "house";
     "&lang="; url.QueryEscape "ru_RU"].

(** What one call of [doGeocodeClinic] leaves behind: what it returned
    ([None] is [nil]), the record behind the pointer, and the URLs it
    requested. *)
Record outcome (Clinic : Type) : Type := mkOutcome {
  returned : option error;
  record : Clinic;
  requests : list string
}.
Arguments mkOutcome {Clinic}.
Arguments returned {Clinic}.
Arguments record {Clinic}.
Arguments requests {Clinic}.

(** ** gen_points.go *)

Module GenPoints.

Record Clinic : Type := mkClinic {
  Name : string;
  RawAddress : string;
  Phone : string;
  Address : string;
  Points : list float64
}.

(** [Clinic{}] *)
Definition zero : Clinic := mkClinic "" "" "" "" [].

Definition _MODE_NONE : Z := 0.
Definition _MODE_SECTION : Z := 1.
Definition _MODE_NAME : Z := 2.
Definition _MODE_ADDRESS : Z := 3.
Definition _MODE_PHONE : Z := 4.

Record parser : Type := mkParser { nextMode : Z }.

Definition isSection (line : string) : go bool :=
  if String.length line <? 3 then Ok false
  else
    a <- index line 0 ;;
    b <- index line 1 ;;
    c <- index line 2 ;;
    if unicode.IsNumber a then
      if Ascii.eqb b "."%char || (unicode.IsNumber b && Ascii.eqb c "."%char)
      then Ok true
      else Ok false
    else Ok false.

(** The line is empty after trimming: the first test of the loop. *)
Definition blank (text : string) : bool :=
  String.eqb (strings.TrimSpace text) "".

(** The line is neither blank nor a section header: it reaches the
    [switch]. *)
Definition data_line (text : string) : Prop :=
  blank text = false /\ isSection (strings.TrimSpace text) = Ok false.

(** The variables the loop of [Parse] works on: the parser, the local
    [cc] and the global [clinics]. *)
Record vars : Type := mkVars {
  p : parser;
  cc : Clinic;
  clinics : list Clinic
}.

(** One turn of the loop, for the line [r.Text()] returned. *)
Definition Parse_line (text : string) (v : vars) : go vars :=
  let line := strings.TrimSpace text in
  if String.eqb line "" then
    Ok (mkVars (mkParser _MODE_NAME) zero (clinics v ++ [cc v]))
  else
    sect <- isSection line ;;
    if sect : bool then
      Ok (mkVars (mkParser _MODE_NAME) (cc v) (clinics v))
    else
      let c := cc v in
      let mode := nextMode (p v) in
      if Z.eqb mode _MODE_NAME then
        Ok (mkVars (mkParser _MODE_ADDRESS)
              (mkClinic line (RawAddress c) (Phone c) (Address c) (Points c))
              (clinics v))
      else if Z.eqb mode _MODE_ADDRESS then
        Ok (mkVars (mkParser _MODE_PHONE)
              (mkClinic (Name c) line (Phone c) (Address c) (Points c))
              (clinics v))
      else if Z.eqb mode _MODE_PHONE then
        Ok (mkVars (p v)
              (mkClinic (Name c) (RawAddress c) line (Address c) (Points c))
              (clinics v))
      else Ok v.

Fixpoint Parse_loop (lines : list string) (v : vars) : go vars :=
  match lines with
  | [] => Ok v
  | text :: rest => v' <- Parse_line text v ;; Parse_loop rest v'
  end.

(** [p.Parse(f)], the scanner [r] over [f] given: the parser and the global
    [clinics] afterwards.  The local [cc] ends with the call, and [r.Err()]
    is never looked at. *)
Definition Parse_scanner (p0 : parser) (clinics0 : list Clinic) (r : bufio.Scanner)
  : go (parser * list Clinic) :=
  v <- Parse_loop (bufio.tokens r) (mkVars p0 zero clinics0) ;;
  Ok (p v, clinics v).

Definition Parse (p0 : parser) (clinics0 : list Clinic) (f : string)
  : go (parser * list Clinic) :=
  Parse_scanner p0 clinics0 (bufio.NewScanner f).

Section Geocode.
Context `{Platform}.

Definition doGeocodeClinic (cc : Clinic) : go (outcome Clinic) :=
  if String.eqb (RawAddress cc) "" then
    Ok (mkOutcome (Some ErrNoRawAddress) cc [])
  else
    let u := geocode_url (RawAddress cc) in
    match http_Get u with
    | inl e => Ok (mkOutcome (Some (ErrLib e)) cc [u])
    | inr resp =>
        if negb (Z.eqb (StatusCode resp) StatusOK) then
          Ok (mkOutcome (Some (ErrBadStatus (Status resp) (Body resp))) cc [u])
        else
          match json_Decode (Body resp) with
          | inl e => Ok (mkOutcome (Some (ErrLib e)) cc [u])
          | inr geoResp =>
              if Nat.eqb (List.length (FeatureMember geoResp)) 0 then
                Ok (mkOutcome (Some (ErrNoGeoObject geoResp)) cc [u])
              else
                match nth_error (FeatureMember geoResp) 0 with
                | None => Panic "index out of range"
                | Some geoObj =>
                    match strings.SplitN_space_2 (Pos geoObj) with
                    | [raw0; raw1] =>
                        match ParseFloat (strings.TrimSpace raw0) with
                        | inl e => Ok (mkOutcome (Some (ErrLib e)) cc [u])
                        | inr lat =>
                            match ParseFloat (strings.TrimSpace raw1) with
                            | inl e => Ok (mkOutcome (Some (ErrLib e)) cc [u])
                            | inr long =>
                                Ok (mkOutcome None
                                      (mkClinic (Name cc) (RawAddress cc) (Phone cc)
                                         (Text geoObj) [long; lat])
                                      [u])
                            end
                        end
                    | _ => Ok (mkOutcome (Some (ErrBadPoints (Pos geoObj))) cc [u])
                    end
                end
          end
    end.

End Geocode.

End GenPoints.

(** ** The sibling variant: no phone field, an address line after each name *)

Module Variant.

Record Clinic : Type := mkClinic {
  Name : string;
  RawAddress : string;
  Address : string;
  Points : list float64
}.

Definition _MODE_NONE : Z := 0.
Definition _MODE_SECTION : Z := 1.
Definition _MODE_ADDRESS : Z := 2.

Record parser : Type := mkParser {
  s : bufio.Scanner;
  prevMode : Z;
  mode : Z
}.

Definition newParser (f : string) : parser :=
  mkParser (bufio.NewScanner f) _MODE_NONE _MODE_NONE.

(** The loop of [Parse] over the lines the scanner still delivers; the
    second [Scan] of a turn takes the line after the current one. *)
Fixpoint Parse_loop (lines : list string) (prevMode0 mode0 : Z) (clinics : list Clinic)
  : go (list Clinic) :=
  match lines with
  | [] => Ok clinics
  | text :: rest =>
      let line := strings.TrimSpace text in
      if String.eqb line "" then Parse_loop rest prevMode0 mode0 clinics
      else
        a <- index line 0 ;;
        header <- (if unicode.IsNumber a
                   then b <- index line 1 ;; Ok (Ascii.eqb b "."%char)
                   else Ok false) ;;
        let '(prevMode1, mode1) :=
          if header : bool then (_MODE_NONE, _MODE_SECTION)
          else if Z.eqb mode0 _MODE_SECTION then (mode0, _MODE_ADDRESS)
          else (prevMode0, mode0) in
        if Z.eqb mode1 _MODE_SECTION then Parse_loop rest prevMode1 mode1 clinics
        else if Z.eqb mode1 _MODE_ADDRESS then
          match rest with
          | [] => Parse_loop rest prevMode1 mode1 clinics
          | text2 :: rest' =>
              let address := strings.TrimSpace text2 in
              if negb (String.eqb address "")
              then Parse_loop rest' prevMode1 mode1
                     (clinics ++ [mkClinic line address "" []])
              else Parse_loop rest' prevMode1 mode1 clinics
          end
        else Parse_loop rest prevMode1 mode1 clinics
  end.

(** [p.Parse()]: the error returned ([None] is [nil]) and the global
    [clinics] afterwards. *)
Definition Parse (p : parser) (clinics0 : list Clinic) : go (option string * list Clinic) :=
  clinics1 <- Parse_loop (bufio.tokens (s p)) (prevMode p) (mode p) clinics0 ;;
  Ok (bufio.err (s p), clinics1).

Section Geocode.
Context `{Platform}.

Definition doGeocodeClinic (cc : Clinic) : go (outcome Clinic) :=
  let u := geocode_url (RawAddress cc) in
  match http_Get u with
  | inl e => Ok (mkOutcome (Some (ErrLib e)) cc [u])
  | inr resp =>
      if negb (Z.eqb (StatusCode resp) StatusOK) then
        Ok (mkOutcome (Some (ErrBadStatus (Status resp) (Body resp))) cc [u])
      else
        match json_Decode (Body resp) with
        | inl e => Ok (mkOutcome (Some (ErrLib e)) cc [u])
        | inr geoResp =>
            match nth_error (FeatureMember geoResp) 0 with
            | None => Panic "index out of range"
            | Some geoObj =>
                match strings.SplitN_space_2 (Pos geoObj) with
                | [raw0; raw1] =>
                    match ParseFloat (strings.TrimSpace raw0) with
                    | inl e => Ok (mkOutcome (Some (ErrLib e)) cc [u])
                    | inr p1 =>
                        match ParseFloat (strings.TrimSpace raw1) with
                        | inl e => Ok (mkOutcome (Some (ErrLib e)) cc [u])
                        | inr p2 =>
                            Ok (mkOutcome None
                                  (mkClinic (Name cc) (RawAddress cc)
                                     (Text geoObj) [p2; p1])
                                  [u])
                        end
                    end
                | _ => Ok (mkOutcome (Some (ErrBadPoints (Pos geoObj))) cc [u])
                end
            end
        end
  end.

End Geocode.

End Variant.

(** ** The dispatcher of [main]

    The loop over [clinics] with the channel [limiter] and the wait group
    [wg], the same in both files, as a transition system: one step of the
    main goroutine or of one of the goroutines it started.  Goroutine [i]
    is the one started for [clinics[i]]. *)

Module Dispatcher.

(** Where a goroutine is: not started yet; started, before the call; inside
    [doGeocodeClinic]; back from it, before [<-limiter]; before
    [wg.Done()]; finished. *)
Inductive phase : Type :=
| NotStarted | Spawned | Calling | Called | Released | Finished.

(** Where the main goroutine is: at the head of the loop, at
    [limiter <- struct{}{}], at the [go] statement, in [wg.Wait()], past
    it. *)
Inductive mainpc : Type :=
| AtLoop | AtSend | AtGo | AtWait | Returned.

Definition capacity : nat := 10.

Fixpoint upd {A : Type} (i : nat) (x : A) (l : list A) : list A :=
  match l, i with
  | [], _ => []
  | _ :: t, O => x :: t
  | h :: t, S i' => h :: upd i' x t
  end.

Definition count {A : Type} (f : A -> bool) (l : list A) : nat :=
  List.length (filter f l).

Definition b2n (b : bool) : nat := if b then 1 else 0.

Definition is_calling (ph : phase) : bool :=
  match ph with Calling => true | _ => false end.

(** The goroutine holds one element of [limiter]. *)
Definition holds_slot (ph : phase) : bool :=
  match ph with Spawned | Calling | Called => true | _ => false end.

(** The goroutine is counted in [wg]. *)
Definition active (ph : phase) : bool :=
  match ph with Spawned | Calling | Called | Released => true | _ => false end.

Definition not_started (ph : phase) : bool :=
  match ph with NotStarted => true | _ => false end.

(** [doGeocodeClinic] has been entered. *)
Definition entered (ph : phase) : bool :=
  match ph with NotStarted | Spawned => false | _ => true end.

(** [doGeocodeClinic] has returned. *)
Definition after_call (ph : phase) : bool :=
  match ph with Called | Released | Finished => true | _ => false end.

Section Run.
Variable Clinic : Type.
Variable doGeocodeClinic : Clinic -> go (outcome Clinic).

Record state : Type := mkState {
  pc : mainpc;
  next : nat;                    (* the index the loop is at *)
  limiter : nat;                 (* the elements in the channel *)
  wg : Z;                        (* the counter of the wait group *)
  phases : list phase;
  store : list Clinic;           (* the records behind [clinics] *)
  calls : list nat;              (* calls of doGeocodeClinic, per record *)
  stderr : list (nat * error);   (* the failures reported *)
  crashed : bool                 (* a goroutine has panicked *)
}.

Definition init (clinics : list Clinic) : state :=
  let n := List.length clinics in
  mkState AtLoop 0 0 0 (repeat NotStarted n) clinics (repeat 0 n) [] false.

(** The calls of [doGeocodeClinic] in flight. *)
Definition in_flight (st : state) : nat := count is_calling (phases st).

Inductive step : state -> state -> Prop :=
| main_add : forall st,
    crashed st = false -> pc st = AtLoop -> next st < List.length (store st) ->
    step st (mkState AtSend (next st) (limiter st) (wg st + 1)%Z (phases st)
               (store st) (calls st) (stderr st) false)
| main_send : forall st,
    crashed st = false -> pc st = AtSend -> limiter st < capacity ->
    step st (mkState AtGo (next st) (S (limiter st)) (wg st) (phases st)
               (store st) (calls st) (stderr st) false)
| main_go : forall st,
    crashed st = false -> pc st = AtGo ->
    step st (mkState AtLoop (S (next st)) (limiter st) (wg st)
               (upd (next st) Spawned (phases st))
               (store st) (calls st) (stderr st) false)
| main_end : forall st,
    crashed st = false -> pc st = AtLoop -> List.length (store st) <= next st ->
    step st (mkState AtWait (next st) (limiter st) (wg st) (phases st)
               (store st) (calls st) (stderr st) false)
| main_wait : forall st,
    crashed st = false -> pc st = AtWait -> wg st = 0%Z ->
    step st (mkState Returned (next st) (limiter st) (wg st) (phases st)
               (store st) (calls st) (stderr st) false)
| g_enter : forall st i k,
    crashed st = false -> nth_error (phases st) i = Some Spawned ->
    nth_error (calls st) i = Some k ->
    step st (mkState (pc st) (next st) (limiter st) (wg st)
               (upd i Calling (phases st))
               (store st) (upd i (S k) (calls st)) (stderr st) false)
| g_return : forall st i cc out,
    crashed st = false -> nth_error (phases st) i = Some Calling ->
    nth_error (store st) i = Some cc ->
    doGeocodeClinic cc = Ok out ->
    step st (mkState (pc st) (next st) (limiter st) (wg st)
               (upd i Called (phases st))
               (upd i (record out) (store st)) (calls st)
               (match returned out with
                | Some e => stderr st ++ [(i, e)]
                | None => stderr st
                end) false)
| g_panic : forall st i cc msg,
    crashed st = false -> nth_error (phases st) i = Some Calling ->
    nth_error (store st) i = Some cc ->
    doGeocodeClinic cc = Panic msg ->
    step st (mkState (pc st) (next st) (limiter st) (wg st) (phases st)
               (store st) (calls st) (stderr st) true)
| g_receive : forall st i,
    crashed st = false -> nth_error (phases st) i = Some Called ->
    0 < limiter st ->
    step st (mkState (pc st) (next st) (Nat.pred (limiter st)) (wg st)
               (upd i Released (phases st))
               (store st) (calls st) (stderr st) false)
| g_done : forall st i,
    crashed st = false -> nth_error (phases st) i = Some Released ->
    (0 < wg st)%Z ->
    step st (mkState (pc st) (next st) (limiter st) (wg st - 1)%Z
               (upd i Finished (phases st))
               (store st) (calls st) (stderr st) false)
| g_done_negative : forall st i,
    crashed st = false -> nth_error (phases st) i = Some Released ->
    (wg st <= 0)%Z ->
    step st (mkState (pc st) (next st) (limiter st) (wg st - 1)%Z
               (phases st) (store st) (calls st) (stderr st) true).

(** The states a run of the dispatcher over [clinics] goes through. *)
Inductive reachable (clinics : list Clinic) : state -> Prop :=
| reach_init : reachable clinics (init clinics)
| reach_step : forall st st',
    reachable clinics st -> step st st' -> reachable clinics st'.

(** What a record is after its call: as [doGeocodeClinic] left it. *)
Definition geocoded (cc : Clinic) : Clinic :=
  match doGeocodeClinic cc with
  | Ok out => record out
  | Panic _ => cc
  end.

(** What holds of every state of a run over [clinics]: the channel and the
    wait group count the goroutines of the matching phases, the loop has
    started the goroutines below [next] and no other, and each record has
    been through as many calls as the phase of its goroutine says. *)
Record inv (clinics : list Clinic) (st : state) : Prop := mkInv {
  inv_phases : List.length (phases st) = List.length clinics;
  inv_store_len : List.length (store st) = List.length clinics;
  inv_calls_len : List.length (calls st) = List.length clinics;
  inv_next : next st <= List.length clinics;
  inv_fresh : forall i, next st <= i -> i < List.length clinics ->
    nth_error (phases st) i = Some NotStarted;
  inv_started : count not_started (phases st) + next st = List.length clinics;
  inv_limiter : limiter st =
    count holds_slot (phases st) + (match pc st with AtGo => 1 | _ => 0 end);
  inv_wg : wg st =
    Z.of_nat (count active (phases st)
              + (match pc st with AtSend | AtGo => 1 | _ => 0 end));
  inv_capacity : limiter st <= capacity;
  inv_pc : match pc st with
           | AtLoop => True
           | AtSend | AtGo => next st < List.length clinics
           | AtWait => next st = List.length clinics
           | Returned => next st = List.length clinics /\ wg st = 0%Z
           end;
  inv_calls : forall i ph, nth_error (phases st) i = Some ph ->
    nth_error (calls st) i = Some (if entered ph then 1 else 0);
  inv_store : forall i ph cc, nth_error (phases st) i = Some ph ->
    nth_error clinics i = Some cc ->
    nth_error (store st) i = Some (if after_call ph then geocoded cc else cc)
}.

(** The steps a goroutine in this phase still has to take. *)
Definition rank (ph : phase) : nat :=
  match ph with
  | NotStarted => 5 | Spawned => 4 | Calling => 3
  | Called => 2 | Released => 1 | Finished => 0
  end.

(** The steps a run still has to take before [wg.Wait()] returns. *)
Definition measure (st : state) : nat :=
  list_sum (map rank (phases st))
  + match pc st with
    | AtLoop => 3 * (List.length (store st) - next st) + 2
    | AtSend => 3 * (List.length (store st) - next st) + 1
    | AtGo => 3 * (List.length (store st) - next st)
    | AtWait => 1
    | Returned => 0
    end.

End Run.

Arguments pc {Clinic}.
Arguments next {Clinic}.
Arguments limiter {Clinic}.
Arguments wg {Clinic}.
Arguments phases {Clinic}.
Arguments store {Clinic}.
Arguments calls {Clinic}.
Arguments stderr {Clinic}.
Arguments crashed {Clinic}.
Arguments init {Clinic}.
Arguments in_flight {Clinic}.
Arguments step {Clinic}.
Arguments reachable {Clinic}.
Arguments geocoded {Clinic}.
Arguments inv {Clinic}.
Arguments measure {Clinic}.

End Dispatcher.

(** ** [main], from [p.Parse(f)] to the return of [wg.Wait()] *)

Module Main.
Section WithPlatform.
Context `{Platform}.

(** gen_points.go: [final] is what the records behind [clinics] are when
    [wg.Wait()] has returned, for the input text [f]. *)
Definition GenPoints_run (f : string) (final : list GenPoints.Clinic) : Prop :=
  exists p1 clinics st,
    GenPoints.Parse (GenPoints.mkParser 0) [] f = Ok (p1, clinics)
    /\ Dispatcher.reachable GenPoints.doGeocodeClinic clinics st
    /\ Dispatcher.pc st = Dispatcher.Returned
    /\ Dispatcher.store st = final.

End WithPlatform.
End Main.

(** ** Geocoding endpoints for the scenarios *)

Module Stub.

(** An endpoint that answers every request with [status] and a body that
    decodes to [answer]; numbers are read as [strconv.ParseFloat] reads
    decimal literals at 32 bits. *)
Definition endpoint (status : Z) (answer : geocodeResponse) : Platform :=
  {| http_Get := fun _ => inr (mkResponse status "status" "body");
     json_Decode := fun _ => inr answer;
     ParseFloat := strconv.ParseFloat32 |}.

(** One successful result, with the coordinate string [pos]. *)
Definition one_result (pos text : string) : Platform :=
  endpoint StatusOK (mkGeocodeResponse [mkGeoObject "" "" text pos]).

(** A successful answer with no result in it. *)
Definition no_result : Platform :=
  endpoint StatusOK (mkGeocodeResponse []).

(** The [float64] nearest to [m / 10^k]: what the decimal literal is in a
    Go program, and what [strconv.ParseFloat] at 64 bits reads it as. *)
Definition literal (m : N) (k : nat) : float64 :=
  match strconv.round64 false m k with
  | Some f => f
  | None => S754_nan
  end.

Definition nl : string := String "010"%char EmptyString.

(** ["1.\nClinicA\nMain St 1\n555-1234\n\n"] *)
Definition scenario : string :=
  String.concat nl ["1."; "ClinicA"; "Main St 1"; "555-1234"; ""; ""].

(** The same under a header of more than two bytes. *)
Definition scenario_long_header : string :=
  String.concat nl ["1. Clinics"; "ClinicA"; "Main St 1"; "555-1234"; ""; ""].

End Stub.

(** ** The causes of a failed call *)

Module Causes.
Section WithPlatform.
Context `{Platform}.

(** The geocoder has answered the request for the record with status 200
    and a body that decodes to [geoResp]. *)
Definition answered (cc : GenPoints.Clinic) (geoResp : geocodeResponse) : Prop :=
  exists resp,
    GenPoints.RawAddress cc <> ""
    /\ http_Get (geocode_url (GenPoints.RawAddress cc)) = inr resp
    /\ StatusCode resp = StatusOK
    /\ json_Decode (Body resp) = inr geoResp.

(** The error returns of [doGeocodeClinic] in gen_points.go, one
    constructor for each [return] with an error, in the order of the
    source. *)
Inductive failure (cc : GenPoints.Clinic) : error -> Prop :=
| no_address :
    GenPoints.RawAddress cc = "" ->
    failure cc ErrNoRawAddress
| transport (e : string) :
    GenPoints.RawAddress cc <> "" ->
    http_Get (geocode_url (GenPoints.RawAddress cc)) = inl e ->
    failure cc (ErrLib e)
| bad_status (resp : Response) :
    GenPoints.RawAddress cc <> "" ->
    http_Get (geocode_url (GenPoints.RawAddress cc)) = inr resp ->
    StatusCode resp <> StatusOK ->
    failure cc (ErrBadStatus (Status resp) (Body resp))
| undecodable (resp : Response) (e : string) :
    GenPoints.RawAddress cc <> "" ->
    http_Get (geocode_url (GenPoints.RawAddress cc)) = inr resp ->
    StatusCode resp = StatusOK ->
    json_Decode (Body resp) = inl e ->
    failure cc (ErrLib e)
| no_result (geoResp : geocodeResponse) :
    answered cc geoResp ->
    FeatureMember geoResp = [] ->
    failure cc (ErrNoGeoObject geoResp)
| one_token (geoResp : geocodeResponse) (first : geoObject) (rest : list geoObject) :
    answered cc geoResp ->
    FeatureMember geoResp = first :: rest ->
    strings.cut_space (Pos first) = None ->
    failure cc (ErrBadPoints (Pos first))
| bad_first_number (geoResp : geocodeResponse) (first : geoObject)
    (rest : list geoObject) (raw0 raw1 e : string) :
    answered cc geoResp ->
    FeatureMember geoResp = first :: rest ->
    strings.cut_space (Pos first) = Some (raw0, raw1) ->
    ParseFloat (strings.TrimSpace raw0) = inl e ->
    failure cc (ErrLib e)
| bad_second_number (geoResp : geocodeResponse) (first : geoObject)
    (rest : list geoObject) (raw0 raw1 e : string) (lat : float64) :
    answered cc geoResp ->
    FeatureMember geoResp = first :: rest ->
    strings.cut_space (Pos first) = Some (raw0, raw1) ->
    ParseFloat (strings.TrimSpace raw0) = inr lat ->
    ParseFloat (strings.TrimSpace raw1) = inl e ->
    failure cc (ErrLib e).

End WithPlatform.

(** The same world, the decoder keeping the first result only. *)
Definition first_only (P : Platform) : Platform :=
  {| http_Get := @http_Get P;
     json_Decode := fun body =>
       match @json_Decode P body with
       | inl e => inl e
       | inr geoResp => inr (mkGeocodeResponse (firstn 1 (FeatureMember geoResp)))
       end;
     ParseFloat := @ParseFloat P |}.

End Causes.

(** ** The lines of the sibling variant *)

Module VariantLines.

(** The test of the first [if] of the loop of [Parse], on a trimmed line
    that is not empty: the first byte a number and the second a point. *)
Definition header (line : string) : go bool :=
  a <- index line 0 ;;
  if unicode.IsNumber a
  then b <- index line 1 ;; Ok (Ascii.eqb b "."%char)
  else Ok false.

(** The line, trimmed, is not one numeric byte alone. *)
Definition safe (text : string) : Prop :=
  forall a, strings.TrimSpace text = String a EmptyString -> unicode.IsNumber a = false.

(** The line is blank, or a line that is no header. *)
Definition plain (text : string) : Prop :=
  String.eqb (strings.TrimSpace text) "" = true
  \/ header (strings.TrimSpace text) = Ok false.

End VariantLines.

(** ** The end of [main]: encoding and output *)

Module Output.

(** What the end of [main] leaves: the file [os.Create] made (none when
    [out] is [os.Stdout]), the bytes written to [out], and the format
    reported as unknown on [os.Stderr]. *)
Record effects : Type := mkEffects {
  created : option string;
  written : string;
  unknown_format : option string
}.

Inductive finish : Type :=
| Exit (e : effects)
| PanicWith (msg : string).

Section Tail.
Variable Clinic : Type.
(** [json.NewEncoder(&buf).Encode(clinics)]: the error, or [buf]. *)
Variable json_Encode : list Clinic -> string + string.
(** [os.Create]: the error, [None] when the file has been made. *)
Variable os_Create : string -> option string.

(** [main] from [var buf bytes.Buffer] on, for the flags [-out] and
    [-format]. *)
Definition main_output (outFile outFormat : string) (clinics : list Clinic) : finish :=
  match json_Encode clinics with
  | inl e => PanicWith e
  | inr buf =>
      let to_file := negb (String.eqb outFile "") && negb (String.eqb outFile "-") in
      match (if to_file then os_Create outFile else None) with
      | Some e => PanicWith e
      | None =>
          let made := if to_file then Some outFile else None in
          if String.eqb outFormat "js"
          then Exit (mkEffects made ("data = " ++ buf)%string None)
          else if String.eqb outFormat "json"
          then Exit (mkEffects made buf None)
          else Exit (mkEffects made "" (Some outFormat))
      end
  end.

End Tail.

Arguments main_output {Clinic}.

End Output.

(** ** Reading a query back *)

Module urlcheck.

Definition hex_value (c : ascii) : option nat :=
  let n := nat_of_ascii c in
  if (48 <=? n) && (n <=? 57) then Some (n - 48)
  else if (65 <=? n) && (n <=? 70) then Some (n - 55)
  else if (97 <=? n) && (n <=? 102) then Some (n - 87)
  else None.

(** [url.QueryUnescape]: [+] is a space and [%XX] the byte [XX]. *)
Fixpoint QueryUnescape (s : string) : option string :=
  match s with
  | EmptyString => Some EmptyString
  | String c rest =>
      if Ascii.eqb c "%"%char then
        match rest with
        | String x (String y rest') =>
            match hex_value x, hex_value y, QueryUnescape rest' with
            | Some h, Some l, Some t => Some (String (ascii_of_nat (16 * h + l)) t)
            | _, _, _ => None
            end
        | _ => None
        end
      else
        match QueryUnescape rest with
        | Some t => Some (String (if Ascii.eqb c "+"%char then " "%char else c) t)
        | None => None
        end
  end.

End urlcheck.

(** * Properties *)

(** ** Lists updated in place, and counting *)

Section Lists.
Context {A : Type}.
Implicit Types (l : list A) (f g : A -> bool).

Lemma upd_length i (x : A) l : List.length (Dispatcher.upd i x l) = List.length l.
Proof.
  revert i; induction l as [|h t IH]; intros [|i]; simpl; auto.
Qed.

Lemma nth_error_upd_eq i (x : A) l :
  i < List.length l -> nth_error (Dispatcher.upd i x l) i = Some x.
Proof.
  revert i; induction l as [|h t IH]; intros [|i] Hi; simpl in *; try lia; auto.
  apply IH; lia.
Qed.

Lemma nth_error_upd_neq i j (x : A) l :
  i <> j -> nth_error (Dispatcher.upd i x l) j = nth_error l j.
Proof.
  revert i j; induction l as [|h t IH]; intros [|i] [|j] Hij; simpl; auto;
    try congruence.
Qed.

Lemma count_cons f x l :
  Dispatcher.count f (x :: l) = Dispatcher.b2n (f x) + Dispatcher.count f l.
Proof.
  unfold Dispatcher.count; simpl; destruct (f x); reflexivity.
Qed.

Lemma count_upd f i x y l :
  nth_error l i = Some y ->
  Dispatcher.count f (Dispatcher.upd i x l) + Dispatcher.b2n (f y)
  = Dispatcher.count f l + Dispatcher.b2n (f x).
Proof.
  revert i; induction l as [|h t IH]; intros [|i] Hy; simpl in *; try discriminate.
  - injection Hy as ->. rewrite !count_cons. lia.
  - rewrite !count_cons. specialize (IH _ Hy). lia.
Qed.


Lemma count_repeat f x n :
  Dispatcher.count f (repeat x n) = n * Dispatcher.b2n (f x).
Proof.
  induction n as [|n IH]; [reflexivity|].
  simpl repeat. rewrite count_cons, IH. lia.
Qed.

Lemma count_member f i x l :
  nth_error l i = Some x -> f x = true -> 0 < Dispatcher.count f l.
Proof.
  revert i; induction l as [|h t IH]; intros [|i] Hx Hf; simpl in *; try discriminate.
  - injection Hx as ->. rewrite count_cons, Hf. simpl. lia.
  - rewrite count_cons. specialize (IH _ Hx Hf). lia.
Qed.

Lemma count_find f l :
  0 < Dispatcher.count f l -> exists i x, nth_error l i = Some x /\ f x = true.
Proof.
  induction l as [|h t IH]; intros Hc.
  - inversion Hc.
  - rewrite count_cons in Hc. destruct (f h) eqn:Hh.
    + exists 0, h. auto.
    + destruct IH as (i & x & Hx & Hf); [simpl in Hc; lia|].
      exists (S i), x. auto.
Qed.

End Lists.

(** ** The parser of gen_points.go *)

Lemma index_in_range (s : string) (i : nat) :
  i < String.length s -> exists b, index s i = Ok b.
Proof.
  unfold index. revert i.
  induction s as [|c s IH]; intros i Hi; simpl in Hi; [lia|].
  destruct i as [|i]; simpl.
  - eauto.
  - apply IH. lia.
Qed.

Lemma isSection_returns (line : string) :
  exists b, GenPoints.isSection line = Ok b.
Proof.
  unfold GenPoints.isSection.
  destruct (String.length line <? 3) eqn:Hlen; [eauto|].
  apply Nat.ltb_ge in Hlen.
  destruct (index_in_range line 0) as [a ->]; [lia|].
  destruct (index_in_range line 1) as [b ->]; [lia|].
  destruct (index_in_range line 2) as [c ->]; [lia|].
  simpl.
  destruct (unicode.IsNumber a); [|eauto].
  destruct (Ascii.eqb b "." || (unicode.IsNumber b && Ascii.eqb c "."))%bool; eauto.
Qed.

Lemma Parse_line_returns (text : string) (v : GenPoints.vars) :
  exists v', GenPoints.Parse_line text v = Ok v'.
Proof.
  unfold GenPoints.Parse_line.
  destruct (String.eqb (strings.TrimSpace text) ""); [eauto|].
  destruct (isSection_returns (strings.TrimSpace text)) as [b ->]. simpl.
  destruct b; [eauto|].
  repeat match goal with |- context [if ?c then _ else _] => destruct c end; eauto.
Qed.

Lemma Parse_loop_returns (lines : list string) (v : GenPoints.vars) :
  exists v', GenPoints.Parse_loop lines v = Ok v'.
Proof.
  revert v; induction lines as [|text rest IH]; intros v; simpl; [eauto|].
  destruct (Parse_line_returns text v) as [v1 ->]. simpl. apply IH.
Qed.

Lemma Parse_loop_app (l1 l2 : list string) (v : GenPoints.vars) :
  GenPoints.Parse_loop (l1 ++ l2) v
  = (v' <- GenPoints.Parse_loop l1 v ;; GenPoints.Parse_loop l2 v').
Proof.
  revert v; induction l1 as [|text rest IH]; intros v; simpl; [reflexivity|].
  destruct (GenPoints.Parse_line text v) as [v1|msg]; simpl; auto.
Qed.

(** A line appends the record in progress when it is blank, and nothing
    otherwise. *)
Lemma Parse_line_clinics (text : string) (v v' : GenPoints.vars) :
  GenPoints.Parse_line text v = Ok v' ->
  GenPoints.clinics v'
  = GenPoints.clinics v ++ (if GenPoints.blank text then [GenPoints.cc v] else []).
Proof.
  unfold GenPoints.Parse_line, GenPoints.blank.
  destruct (String.eqb (strings.TrimSpace text) "").
  - intros [= <-]. reflexivity.
  - destruct (GenPoints.isSection (strings.TrimSpace text)) as [b|msg]; simpl;
      [|discriminate].
    rewrite app_nil_r.
    destruct b; [intros [= <-]; reflexivity|].
    repeat match goal with |- context [if ?c then _ else _] => destruct c end;
      intros [= <-]; reflexivity.
Qed.

Lemma Parse_line_blank (text : string) (v : GenPoints.vars) :
  GenPoints.blank text = true ->
  GenPoints.Parse_line text v
  = Ok (GenPoints.mkVars (GenPoints.mkParser GenPoints._MODE_NAME) GenPoints.zero
          (GenPoints.clinics v ++ [GenPoints.cc v])).
Proof.
  unfold GenPoints.Parse_line, GenPoints.blank. intros ->. reflexivity.
Qed.

Lemma Parse_loop_clinics (lines : list string) (v v' : GenPoints.vars) :
  GenPoints.Parse_loop lines v = Ok v' ->
  exists added,
    GenPoints.clinics v' = GenPoints.clinics v ++ added
    /\ List.length added = Dispatcher.count GenPoints.blank lines.
Proof.
  revert v; induction lines as [|text rest IH]; intros v; simpl.
  - intros [= <-]. exists []. rewrite app_nil_r. auto.
  - destruct (GenPoints.Parse_line text v) as [v1|msg] eqn:Hline; simpl;
      [|discriminate].
    intros Hrest. destruct (IH _ Hrest) as (added & Heq & Hlen).
    apply Parse_line_clinics in Hline.
    exists ((if GenPoints.blank text then [GenPoints.cc v] else []) ++ added).
    rewrite Heq, Hline, <- app_assoc. split; [reflexivity|].
    rewrite count_cons, length_app, Hlen.
    destruct (GenPoints.blank text); reflexivity.
Qed.

(** Lines that are not blank leave [clinics] as it is. *)
Lemma Parse_loop_no_blank (lines : list string) (v v' : GenPoints.vars) :
  Forall (fun text => GenPoints.blank text = false) lines ->
  GenPoints.Parse_loop lines v = Ok v' ->
  GenPoints.clinics v' = GenPoints.clinics v.
Proof.
  intros Hall Hrun.
  destruct (Parse_loop_clinics _ _ _ Hrun) as (added & -> & Hlen).
  assert (Dispatcher.count GenPoints.blank lines = 0) as Hzero.
  { clear -Hall. induction Hall as [|text rest Hb _ IH]; [reflexivity|].
    rewrite count_cons, Hb, IH. reflexivity. }
  destruct added; [apply app_nil_r | simpl in Hlen; lia].
Qed.

(** A data line fills the field the parser is waiting for. *)
Lemma Parse_line_data (text : string) (v : GenPoints.vars) :
  GenPoints.data_line text ->
  GenPoints.Parse_line text v =
  let line := strings.TrimSpace text in
  let c := GenPoints.cc v in
  let mode := GenPoints.nextMode (GenPoints.p v) in
  if Z.eqb mode GenPoints._MODE_NAME then
    Ok (GenPoints.mkVars (GenPoints.mkParser GenPoints._MODE_ADDRESS)
          (GenPoints.mkClinic line (GenPoints.RawAddress c) (GenPoints.Phone c)
             (GenPoints.Address c) (GenPoints.Points c))
          (GenPoints.clinics v))
  else if Z.eqb mode GenPoints._MODE_ADDRESS then
    Ok (GenPoints.mkVars (GenPoints.mkParser GenPoints._MODE_PHONE)
          (GenPoints.mkClinic (GenPoints.Name c) line (GenPoints.Phone c)
             (GenPoints.Address c) (GenPoints.Points c))
          (GenPoints.clinics v))
  else if Z.eqb mode GenPoints._MODE_PHONE then
    Ok (GenPoints.mkVars (GenPoints.p v)
          (GenPoints.mkClinic (GenPoints.Name c) (GenPoints.RawAddress c) line
             (GenPoints.Address c) (GenPoints.Points c))
          (GenPoints.clinics v))
  else Ok v.
Proof.
  intros [Hblank Hsect]. unfold GenPoints.blank in Hblank.
  unfold GenPoints.Parse_line. rewrite Hblank, Hsect. reflexivity.
Qed.

Lemma last_nonempty {A : Type} (x : A) (l : list A) (d d' : A) :
  last (x :: l) d = last (x :: l) d'.
Proof.
  revert x; induction l as [|y l IH]; intros x; [reflexivity|].
  change (last (y :: l) d = last (y :: l) d'). apply IH.
Qed.

Lemma last_cons_cons {A : Type} (x y : A) (l : list A) (d : A) :
  last (x :: y :: l) d = last (y :: l) d.
Proof. reflexivity. Qed.

(** In the PHONE role every further data line is stored in [Phone], over
    the one before. *)
Lemma Parse_loop_phone (more : list string) (v : GenPoints.vars) :
  GenPoints.nextMode (GenPoints.p v) = GenPoints._MODE_PHONE ->
  Forall GenPoints.data_line more ->
  GenPoints.Parse_loop more v =
  Ok (GenPoints.mkVars (GenPoints.p v)
        (GenPoints.mkClinic (GenPoints.Name (GenPoints.cc v))
           (GenPoints.RawAddress (GenPoints.cc v))
           (last (map strings.TrimSpace more) (GenPoints.Phone (GenPoints.cc v)))
           (GenPoints.Address (GenPoints.cc v)) (GenPoints.Points (GenPoints.cc v)))
        (GenPoints.clinics v)).
Proof.
  intros Hmode Hall. revert v Hmode.
  induction Hall as [|text rest Hd _ IH]; intros v Hmode.
  - destruct v as [p0 [] cs]. reflexivity.
  - cbn [GenPoints.Parse_loop]. rewrite (Parse_line_data _ _ Hd), Hmode.
    cbn [Z.eqb GenPoints._MODE_PHONE GenPoints._MODE_NAME GenPoints._MODE_ADDRESS
         Pos.eqb bind].
    rewrite IH by exact Hmode. cbn [GenPoints.p GenPoints.cc GenPoints.clinics
      GenPoints.Name GenPoints.RawAddress GenPoints.Phone GenPoints.Address
      GenPoints.Points].
    do 3 f_equal. destruct rest as [|text' rest]; [reflexivity|].
    cbn [map]. symmetry.
    etransitivity; [apply last_cons_cons | apply last_nonempty].
Qed.

(** C7: when the lines after the last blank line hold no blank line, the
    records [Parse] leaves in [clinics] are those of the input without these
    lines: the end of the input does not append the record in progress. *)
Theorem trailing_block_dropped :
  forall (p0 : GenPoints.parser) (clinics0 : list GenPoints.Clinic)
         (lines tail : list string) (e e' : option string),
    Forall (fun text => GenPoints.blank text = false) tail ->
    exists p1 p2 clinics1,
      GenPoints.Parse_scanner p0 clinics0 (bufio.mkScanner lines e) = Ok (p1, clinics1)
      /\ GenPoints.Parse_scanner p0 clinics0 (bufio.mkScanner (lines ++ tail) e')
         = Ok (p2, clinics1).
Proof.
  intros p0 clinics0 lines tail e e' Htail.
  unfold GenPoints.Parse_scanner. cbn [bufio.tokens].
  rewrite Parse_loop_app.
  destruct (Parse_loop_returns lines (GenPoints.mkVars p0 GenPoints.zero clinics0))
    as [v1 Hv1].
  rewrite Hv1. cbn [bind].
  destruct (Parse_loop_returns tail v1) as [v2 Hv2]. rewrite Hv2. cbn [bind].
  exists (GenPoints.p v1), (GenPoints.p v2), (GenPoints.clinics v1).
  split; [reflexivity|].
  rewrite (Parse_loop_no_blank _ _ _ Htail Hv2). reflexivity.
Qed.

Lemma trailing_block_dropped_witness :
  Forall (fun text => GenPoints.blank text = false)
    ["ClinicB"; "Side St 2"; "555-0000"]
  /\ exists p1 p2 clinics1,
      GenPoints.Parse_scanner (GenPoints.mkParser 0) []
        (bufio.mkScanner ["1. Clinics"; "ClinicA"; "Main St 1"; "555-1234"; ""] None)
      = Ok (p1, clinics1)
      /\ GenPoints.Parse_scanner (GenPoints.mkParser 0) []
           (bufio.mkScanner
              (["1. Clinics"; "ClinicA"; "Main St 1"; "555-1234"; ""]
               ++ ["ClinicB"; "Side St 2"; "555-0000"]) None)
         = Ok (p2, clinics1).
Proof.
  split.
  - repeat constructor.
  - apply (trailing_block_dropped (GenPoints.mkParser 0) []
             ["1. Clinics"; "ClinicA"; "Main St 1"; "555-1234"; ""]
             ["ClinicB"; "Side St 2"; "555-0000"] None None).
    repeat constructor.
Defined.

(** C8, as the code has it: in a block that begins in the NAME role, the
    first data line is the name, the second the address, and each later one
    is stored in [Phone] over the one before, so that the blank line that
    ends the block appends a record whose phone is the last data line of the
    block. *)
Theorem phone_is_last_line_of_block :
  forall (v : GenPoints.vars) (name addr : string) (more : list string)
         (blank_line : string),
    GenPoints.nextMode (GenPoints.p v) = GenPoints._MODE_NAME ->
    GenPoints.data_line name ->
    GenPoints.data_line addr ->
    Forall GenPoints.data_line more ->
    more <> [] ->
    GenPoints.blank blank_line = true ->
    GenPoints.Parse_loop (name :: addr :: more ++ [blank_line]) v
    = Ok (GenPoints.mkVars (GenPoints.mkParser GenPoints._MODE_NAME) GenPoints.zero
            (GenPoints.clinics v
             ++ [GenPoints.mkClinic (strings.TrimSpace name) (strings.TrimSpace addr)
                   (strings.TrimSpace (last more ""))
                   (GenPoints.Address (GenPoints.cc v))
                   (GenPoints.Points (GenPoints.cc v))])).
Proof.
  intros v name addr more blank_line Hmode Hname Haddr Hmore Hne Hblank.
  cbn [GenPoints.Parse_loop].
  rewrite (Parse_line_data _ _ Hname), Hmode. cbn [Z.eqb GenPoints._MODE_NAME Pos.eqb bind].
  rewrite (Parse_line_data _ _ Haddr). cbn.
  rewrite Parse_loop_app, Parse_loop_phone by (auto; reflexivity).
  cbn [bind GenPoints.Parse_loop]. rewrite Parse_line_blank by exact Hblank.
  cbn. do 4 f_equal.
  clear -Hne. induction more as [|a [|b rest] IH]; [congruence|reflexivity|].
  change (last (map strings.TrimSpace (a :: b :: rest)) "")
    with (last (map strings.TrimSpace (b :: rest)) "").
  change (last (a :: b :: rest) "") with (last (b :: rest) "").
  apply IH. discriminate.
Qed.

Lemma phone_is_last_line_of_block_witness :
  GenPoints.Parse_loop
    (["ClinicA"; "Main St 1"] ++ ["555-1234"; "555-9999"] ++ [""])
    (GenPoints.mkVars (GenPoints.mkParser GenPoints._MODE_NAME) GenPoints.zero [])
  = Ok (GenPoints.mkVars (GenPoints.mkParser GenPoints._MODE_NAME) GenPoints.zero
          [GenPoints.mkClinic "ClinicA" "Main St 1" "555-9999" "" []]).
Proof.
  apply (phone_is_last_line_of_block
           (GenPoints.mkVars (GenPoints.mkParser GenPoints._MODE_NAME) GenPoints.zero [])
           "ClinicA" "Main St 1" ["555-1234"; "555-9999"] "").
  - reflexivity.
  - split; reflexivity.
  - split; reflexivity.
  - repeat constructor.
  - discriminate.
  - reflexivity.
Defined.

(** C8, as the claim has it, fails: a fourth data line of a block is not
    ignored, the phone of the record is that line and not the third. *)
Lemma phone_not_third_line :
  GenPoints.Parse_scanner (GenPoints.mkParser 0) []
    (bufio.mkScanner
       ["1. Clinics"; "ClinicA"; "Main St 1"; "555-1234"; "555-9999"; ""] None)
  = Ok (GenPoints.mkParser GenPoints._MODE_NAME,
        [GenPoints.mkClinic "ClinicA" "Main St 1" "555-9999" "" []])
  /\ "555-9999" <> "555-1234".
Proof.
  split; [vm_compute; reflexivity | discriminate].
Qed.

(** C9: [Parse] of gen_points.go returns on every input, with no panic and
    nothing to report; the sibling variant indexes the second byte of a
    line without looking at its length, and panics on a line that is one
    digit. *)
Theorem parse_returns_but_variant_panics :
  (forall (p0 : GenPoints.parser) (clinics0 : list GenPoints.Clinic) (r : bufio.Scanner),
      exists p1 clinics1, GenPoints.Parse_scanner p0 clinics0 r = Ok (p1, clinics1))
  /\ (forall (p0 : GenPoints.parser) (clinics0 : list GenPoints.Clinic) (f : string),
      exists p1 clinics1, GenPoints.Parse p0 clinics0 f = Ok (p1, clinics1))
  /\ Variant.Parse (Variant.newParser (String "5" Stub.nl)) []
     = Panic "index out of range".
Proof.
  assert (forall p0 clinics0 r,
             exists p1 clinics1,
               GenPoints.Parse_scanner p0 clinics0 r = Ok (p1, clinics1)) as Hscan.
  { intros p0 clinics0 r. unfold GenPoints.Parse_scanner.
    destruct (Parse_loop_returns (bufio.tokens r)
                (GenPoints.mkVars p0 GenPoints.zero clinics0)) as [v ->].
    cbn [bind]. eauto. }
  split; [exact Hscan|]. split.
  - intros p0 clinics0 f. apply Hscan.
  - vm_compute. reflexivity.
Qed.



(** ** Numbers read at 32 bits *)

(** What ["37.6"] is read as: [9856614 / 2^18], a binary32 value (the
    mantissa has 24 bits) within half a unit in the last place, [2^-19], of
    37.6, and not 37.6. *)
Lemma ParseFloat32_nearest_37_6 :
  strconv.ParseFloat32 "37.6" = inr (S754_finite false (9856614 * 2 ^ 29) (-47))
  /\ (2 ^ 23 <= 9856614 < 2 ^ 24)%Z
  /\ (Z.abs (10 * 9856614 - 376 * 2 ^ 18) * 2 ^ 19 <= 10 * 2 ^ 18)%Z
  /\ (10 * 9856614 <> 376 * 2 ^ 18)%Z.
Proof.
  split; [vm_compute; reflexivity|]. split; [lia|]. split; [|lia].
  vm_compute. discriminate.
Qed.

(** What ["55.75"] is read as: [223 / 4], which is 55.75 and is the
    [float64] of the literal. *)
Lemma ParseFloat32_exact_55_75 :
  strconv.ParseFloat32 "55.75" = inr (S754_finite false (223 * 2 ^ 45) (-47))
  /\ Stub.literal 5575 2 = S754_finite false (223 * 2 ^ 45) (-47)
  /\ (223 * 100 = 5575 * 2 ^ 2)%Z.
Proof.
  split; [vm_compute; reflexivity|]. split; [vm_compute; reflexivity | lia].
Qed.

(** ** The geocode client *)

Ltac case_split :=
  repeat match goal with
    | |- context [match ?x with _ => _ end] => destruct x eqn:?
    end.

Section Client.
Context `{Platform}.

Lemma GenPoints_error_keeps_record (cc : GenPoints.Clinic)
    (out : outcome GenPoints.Clinic) (e : error) :
  GenPoints.doGeocodeClinic cc = Ok out -> returned out = Some e -> record out = cc.
Proof.
  unfold GenPoints.doGeocodeClinic. case_split;
    intros [= <-]; cbn [returned record]; congruence.
Qed.

Lemma Variant_error_keeps_record (cc : Variant.Clinic)
    (out : outcome Variant.Clinic) (e : error) :
  Variant.doGeocodeClinic cc = Ok out -> returned out = Some e -> record out = cc.
Proof.
  unfold Variant.doGeocodeClinic. case_split;
    intros [= <-]; cbn [returned record]; congruence.
Qed.

(** gen_points.go never panics in the client: the first result is read
    after the length has been looked at. *)
Lemma GenPoints_doGeocodeClinic_returns (cc : GenPoints.Clinic) :
  exists out, GenPoints.doGeocodeClinic cc = Ok out.
Proof.
  unfold GenPoints.doGeocodeClinic. case_split; eauto.
  match goal with
  | Hnone : nth_error ?l 0 = None |- _ => destruct l; discriminate
  end.
Qed.

Lemma GenPoints_empty_address (cc : GenPoints.Clinic) :
  GenPoints.RawAddress cc = "" ->
  GenPoints.doGeocodeClinic cc = Ok (mkOutcome (Some ErrNoRawAddress) cc []).
Proof.
  unfold GenPoints.doGeocodeClinic. intros ->. reflexivity.
Qed.

Lemma GenPoints_no_result (cc : GenPoints.Clinic) (resp : Response)
    (geoResp : geocodeResponse) :
  GenPoints.RawAddress cc <> "" ->
  http_Get (geocode_url (GenPoints.RawAddress cc)) = inr resp ->
  StatusCode resp = StatusOK ->
  json_Decode (Body resp) = inr geoResp ->
  FeatureMember geoResp = [] ->
  GenPoints.doGeocodeClinic cc
  = Ok (mkOutcome (Some (ErrNoGeoObject geoResp)) cc
          [geocode_url (GenPoints.RawAddress cc)]).
Proof.
  intros Haddr Hget Hstatus Hjson Hnone. unfold GenPoints.doGeocodeClinic.
  apply String.eqb_neq in Haddr. rewrite Haddr, Hget, Hstatus, Hjson, Hnone.
  reflexivity.
Qed.

Lemma Variant_no_result (cc : Variant.Clinic) (resp : Response)
    (geoResp : geocodeResponse) :
  http_Get (geocode_url (Variant.RawAddress cc)) = inr resp ->
  StatusCode resp = StatusOK ->
  json_Decode (Body resp) = inr geoResp ->
  FeatureMember geoResp = [] ->
  Variant.doGeocodeClinic cc = Panic "index out of range".
Proof.
  intros Hget Hstatus Hjson Hnone. unfold Variant.doGeocodeClinic.
  rewrite Hget, Hstatus, Hjson, Hnone. reflexivity.
Qed.

(** A call that returns [nil] has read two numbers off the coordinate
    string of the first result and stored them second first. *)
Lemma GenPoints_success (cc : GenPoints.Clinic) (out : outcome GenPoints.Clinic) :
  GenPoints.doGeocodeClinic cc = Ok out -> returned out = None ->
  exists resp geoResp geoObj raw0 raw1 lat long,
    http_Get (geocode_url (GenPoints.RawAddress cc)) = inr resp
    /\ json_Decode (Body resp) = inr geoResp
    /\ nth_error (FeatureMember geoResp) 0 = Some geoObj
    /\ strings.SplitN_space_2 (Pos geoObj) = [raw0; raw1]
    /\ ParseFloat (strings.TrimSpace raw0) = inr lat
    /\ ParseFloat (strings.TrimSpace raw1) = inr long
    /\ record out
       = GenPoints.mkClinic (GenPoints.Name cc) (GenPoints.RawAddress cc)
           (GenPoints.Phone cc) (Text geoObj) [long; lat].
Proof.
  unfold GenPoints.doGeocodeClinic. case_split;
    intros [= <-]; cbn [returned record]; try discriminate.
  intros _. subst. repeat eexists; eauto.
Qed.

Lemma Variant_success (cc : Variant.Clinic) (out : outcome Variant.Clinic) :
  Variant.doGeocodeClinic cc = Ok out -> returned out = None ->
  exists resp geoResp geoObj raw0 raw1 p1 p2,
    http_Get (geocode_url (Variant.RawAddress cc)) = inr resp
    /\ json_Decode (Body resp) = inr geoResp
    /\ nth_error (FeatureMember geoResp) 0 = Some geoObj
    /\ strings.SplitN_space_2 (Pos geoObj) = [raw0; raw1]
    /\ ParseFloat (strings.TrimSpace raw0) = inr p1
    /\ ParseFloat (strings.TrimSpace raw1) = inr p2
    /\ record out
       = Variant.mkClinic (Variant.Name cc) (Variant.RawAddress cc)
           (Text geoObj) [p2; p1].
Proof.
  unfold Variant.doGeocodeClinic. case_split;
    intros [= <-]; cbn [returned record]; try discriminate.
  intros _. subst. repeat eexists; eauto.
Qed.

End Client.

(** ** The dispatcher *)

Lemma nth_error_repeat_inv {A : Type} (x y : A) (n i : nat) :
  nth_error (repeat x n) i = Some y -> y = x /\ i < n.
Proof.
  revert i; induction n as [|n IH]; intros [|i]; simpl; try discriminate.
  - intros [= <-]. split; [reflexivity | lia].
  - intros Hi. destruct (IH _ Hi). split; [assumption | lia].
Qed.

Lemma nth_error_repeat_lt {A : Type} (x : A) (n i : nat) :
  i < n -> nth_error (repeat x n) i = Some x.
Proof.
  revert i; induction n as [|n IH]; intros [|i] Hi; simpl; try lia; auto.
  apply IH. lia.
Qed.

Lemma nth_error_upd {A : Type} (i j : nat) (x y : A) (l : list A) :
  nth_error (Dispatcher.upd i x l) j = Some y ->
  (j = i /\ y = x) \/ (j <> i /\ nth_error l j = Some y).
Proof.
  intros Hj. destruct (Nat.eq_dec j i) as [->|Hne].
  - left. split; [reflexivity|].
    assert (i < List.length l) as Hi.
    { rewrite <- (upd_length i x). apply nth_error_Some. congruence. }
    rewrite nth_error_upd_eq in Hj by exact Hi. congruence.
  - right. rewrite nth_error_upd_neq in Hj by congruence. auto.
Qed.

Lemma list_sum_rank_upd (i : nat) (ph ph' : Dispatcher.phase)
    (l : list Dispatcher.phase) :
  nth_error l i = Some ph ->
  list_sum (map Dispatcher.rank (Dispatcher.upd i ph' l)) + Dispatcher.rank ph
  = list_sum (map Dispatcher.rank l) + Dispatcher.rank ph'.
Proof.
  revert i; induction l as [|h t IH]; intros [|i] Hi; simpl in *; try discriminate.
  - injection Hi as ->. lia.
  - specialize (IH _ Hi). lia.
Qed.

Section DispatcherFacts.
Variable Clinic : Type.
Variable doGeocodeClinic : Clinic -> go (outcome Clinic).

Local Abbreviation step := (Dispatcher.step doGeocodeClinic).
Local Abbreviation reachable := (Dispatcher.reachable doGeocodeClinic).
Local Abbreviation inv := (Dispatcher.inv doGeocodeClinic).
Local Abbreviation geocoded := (Dispatcher.geocoded doGeocodeClinic).

Lemma inv_init (clinics : list Clinic) : inv clinics (Dispatcher.init clinics).
Proof.
  constructor; cbn [Dispatcher.init Dispatcher.phases Dispatcher.store
    Dispatcher.calls Dispatcher.next Dispatcher.limiter Dispatcher.wg Dispatcher.pc];
    rewrite ?repeat_length, ?count_repeat; cbn [Dispatcher.not_started
      Dispatcher.holds_slot Dispatcher.active Dispatcher.b2n]; try lia; auto.
  - intros i _ Hi. apply nth_error_repeat_lt. exact Hi.
  - intros i ph Hph. apply nth_error_repeat_inv in Hph as [-> Hi].
    apply nth_error_repeat_lt. exact Hi.
  - intros i ph cc Hph Hcc. apply nth_error_repeat_inv in Hph as [-> Hi].
    exact Hcc.
Qed.

(** What one goroutine moving from [ph] to [ph'] does to the counts. *)
Lemma counts_upd (i : nat) (ph ph' : Dispatcher.phase) (l : list Dispatcher.phase) :
  nth_error l i = Some ph ->
  Dispatcher.count Dispatcher.not_started (Dispatcher.upd i ph' l)
    + Dispatcher.b2n (Dispatcher.not_started ph)
  = Dispatcher.count Dispatcher.not_started l
    + Dispatcher.b2n (Dispatcher.not_started ph')
  /\ Dispatcher.count Dispatcher.holds_slot (Dispatcher.upd i ph' l)
    + Dispatcher.b2n (Dispatcher.holds_slot ph)
  = Dispatcher.count Dispatcher.holds_slot l
    + Dispatcher.b2n (Dispatcher.holds_slot ph')
  /\ Dispatcher.count Dispatcher.active (Dispatcher.upd i ph' l)
    + Dispatcher.b2n (Dispatcher.active ph)
  = Dispatcher.count Dispatcher.active l
    + Dispatcher.b2n (Dispatcher.active ph')
  /\ (Dispatcher.holds_slot ph = true -> 0 < Dispatcher.count Dispatcher.holds_slot l)
  /\ (Dispatcher.active ph = true -> 0 < Dispatcher.count Dispatcher.active l).
Proof.
  intros Hph. repeat split; try (apply count_upd; exact Hph);
    intros Hf; eapply count_member; eauto.
Qed.

(** A goroutine that has been started is one the loop has passed. *)
Lemma started_below_next (clinics : list Clinic) (st : Dispatcher.state Clinic)
    (i : nat) (ph : Dispatcher.phase) :
  inv clinics st -> nth_error (Dispatcher.phases st) i = Some ph ->
  ph <> Dispatcher.NotStarted ->
  i < Dispatcher.next st /\ i < List.length clinics.
Proof.
  intros [Hlen _ _ _ Hfresh _ _ _ _ _ _ _] Hph Hne.
  assert (i < List.length clinics) as Hi.
  { rewrite <- Hlen. apply nth_error_Some. congruence. }
  split; [|exact Hi].
  destruct (Nat.lt_ge_cases i (Dispatcher.next st)) as [Hlt|Hge]; [exact Hlt|].
  pose proof (Hfresh i Hge Hi). congruence.
Qed.

Ltac proj :=
  cbn [Dispatcher.pc Dispatcher.next Dispatcher.limiter Dispatcher.wg
       Dispatcher.phases Dispatcher.store Dispatcher.calls Dispatcher.stderr
       Dispatcher.crashed] in *.

Ltac phase_facts :=
  cbn [Dispatcher.not_started Dispatcher.holds_slot Dispatcher.active
       Dispatcher.entered Dispatcher.after_call Dispatcher.b2n] in *.

Lemma inv_step (clinics : list Clinic) (st st' : Dispatcher.state Clinic) :
  inv clinics st -> step st st' -> inv clinics st'.
Proof.
  intros Hinv Hstep.
  pose proof Hinv as [Hlen Hslen Hclen Hnext Hfresh Hstarted Hlim Hwg Hcap Hpc
                        Hcalls Hstore].
  destruct Hstep as
    [ st Hrun Hat Hlt | st Hrun Hat Hroom | st Hrun Hat | st Hrun Hat Hge
    | st Hrun Hat Hzero | st i k Hrun Hph Hk | st i cc out Hrun Hph Hcc Hout
    | st i cc msg Hrun Hph Hcc Hout | st i Hrun Hph Hpos | st i Hrun Hph Hpos
    | st i Hrun Hph Hneg ];
    try rewrite Hat in *.
  - constructor; proj; try lia; auto.
  - constructor; proj; unfold Dispatcher.capacity in *; try lia; auto.
  - assert (nth_error (Dispatcher.phases st) (Dispatcher.next st)
            = Some Dispatcher.NotStarted) as Hph by (apply Hfresh; lia).
    destruct (counts_upd _ _ Dispatcher.Spawned _ Hph) as (C1 & C2 & C3 & _).
    phase_facts.
    constructor; proj; rewrite ?upd_length; try lia; auto.
    + intros j Hj1 Hj2. rewrite nth_error_upd_neq by lia. apply Hfresh; lia.
    + intros j phj Hj. apply nth_error_upd in Hj as [[-> ->] | [Hne Hj]]; auto.
      apply (Hcalls _ _ Hph).
    + intros j phj c Hj Hc. apply nth_error_upd in Hj as [[-> ->] | [Hne Hj]]; auto.
      apply (Hstore _ _ _ Hph Hc).
  - constructor; proj; try lia; auto.
  - constructor; proj; try lia; auto.
  - destruct (started_below_next _ _ _ _ Hinv Hph ltac:(discriminate)) as [Hi1 Hi2].
    destruct (counts_upd _ _ Dispatcher.Calling _ Hph) as (C1 & C2 & C3 & C4 & C5).
    phase_facts. pose proof (Hcalls _ _ Hph) as Hk0. phase_facts.
    assert (k = 0) as -> by congruence.
    constructor; proj; rewrite ?upd_length; try lia; auto.
    + intros j Hj1 Hj2. rewrite nth_error_upd_neq by lia. apply Hfresh; lia.
    + intros j phj Hj. apply nth_error_upd in Hj as [[-> ->] | [Hne Hj]].
      * apply nth_error_upd_eq. lia.
      * rewrite nth_error_upd_neq by congruence. auto.
    + intros j phj c Hj Hc. apply nth_error_upd in Hj as [[-> ->] | [Hne Hj]]; auto.
      apply (Hstore _ _ _ Hph Hc).
  - destruct (started_below_next _ _ _ _ Hinv Hph ltac:(discriminate)) as [Hi1 Hi2].
    destruct (counts_upd _ _ Dispatcher.Called _ Hph) as (C1 & C2 & C3 & C4 & C5).
    phase_facts.
    constructor; proj; rewrite ?upd_length; try lia; auto.
    + intros j Hj1 Hj2. rewrite nth_error_upd_neq by lia. apply Hfresh; lia.
    + intros j phj Hj. apply nth_error_upd in Hj as [[-> ->] | [Hne Hj]]; auto.
      apply (Hcalls _ _ Hph).
    + intros j phj c Hj Hc. apply nth_error_upd in Hj as [[-> ->] | [Hne Hj]].
      * pose proof (Hstore _ _ _ Hph Hc) as Hold. phase_facts.
        assert (c = cc) as -> by congruence.
        rewrite nth_error_upd_eq by lia.
        unfold Dispatcher.geocoded. rewrite Hout. reflexivity.
      * rewrite nth_error_upd_neq by congruence. auto.
  - constructor; proj; auto.
  - destruct (started_below_next _ _ _ _ Hinv Hph ltac:(discriminate)) as [Hi1 Hi2].
    destruct (counts_upd _ _ Dispatcher.Released _ Hph) as (C1 & C2 & C3 & C4 & C5).
    phase_facts.
    constructor; proj; rewrite ?upd_length; try lia; auto.
    + intros j Hj1 Hj2. rewrite nth_error_upd_neq by lia. apply Hfresh; lia.
    + intros j phj Hj. apply nth_error_upd in Hj as [[-> ->] | [Hne Hj]]; auto.
      apply (Hcalls _ _ Hph).
    + intros j phj c Hj Hc. apply nth_error_upd in Hj as [[-> ->] | [Hne Hj]]; auto.
      apply (Hstore _ _ _ Hph Hc).
  - destruct (started_below_next _ _ _ _ Hinv Hph ltac:(discriminate)) as [Hi1 Hi2].
    destruct (counts_upd _ _ Dispatcher.Finished _ Hph) as (C1 & C2 & C3 & C4 & C5).
    phase_facts.
    constructor; proj; rewrite ?upd_length; try lia; auto.
    + intros j Hj1 Hj2. rewrite nth_error_upd_neq by lia. apply Hfresh; lia.
    + destruct (Dispatcher.pc st); lia.
    + intros j phj Hj. apply nth_error_upd in Hj as [[-> ->] | [Hne Hj]]; auto.
      apply (Hcalls _ _ Hph).
    + intros j phj c Hj Hc. apply nth_error_upd in Hj as [[-> ->] | [Hne Hj]]; auto.
      apply (Hstore _ _ _ Hph Hc).
  - destruct (counts_upd _ _ Dispatcher.Finished _ Hph) as (_ & _ & _ & _ & C5).
    phase_facts. specialize (C5 eq_refl). lia.
Qed.

Lemma reachable_inv (clinics : list Clinic) (st : Dispatcher.state Clinic) :
  reachable clinics st -> inv clinics st.
Proof.
  induction 1 as [|st st' _ IH Hstep]; [apply inv_init | eapply inv_step; eauto].
Qed.



(** When [wg.Wait()] has returned every goroutine has finished. *)
Lemma returned_all_finished (clinics : list Clinic) (st : Dispatcher.state Clinic)
    (i : nat) (ph : Dispatcher.phase) :
  inv clinics st -> Dispatcher.pc st = Dispatcher.Returned ->
  nth_error (Dispatcher.phases st) i = Some ph -> ph = Dispatcher.Finished.
Proof.
  intros [Hlen _ _ _ _ Hstarted _ Hwg _ Hpc _ _] Hret Hph.
  rewrite Hret in *. destruct Hpc as [Hn Hzero].
  destruct ph; try reflexivity;
    match goal with
    | _ : nth_error _ _ = Some Dispatcher.NotStarted |- _ =>
        pose proof (count_member Dispatcher.not_started _ _ _ Hph eq_refl)
    | _ => pose proof (count_member Dispatcher.active _ _ _ Hph eq_refl)
    end; lia.
Qed.

Lemma returned_results (clinics : list Clinic) (st : Dispatcher.state Clinic) :
  reachable clinics st -> Dispatcher.pc st = Dispatcher.Returned ->
  Dispatcher.calls st = repeat 1 (List.length clinics)
  /\ Dispatcher.store st = map geocoded clinics
  /\ Dispatcher.in_flight st = 0.
Proof.
  intros Hreach Hret. apply reachable_inv in Hreach as Hinv.
  pose proof Hinv as [Hlen Hslen Hclen _ _ _ _ _ _ _ Hcalls Hstore].
  assert (forall i, i < List.length clinics ->
                    nth_error (Dispatcher.phases st) i = Some Dispatcher.Finished)
    as Hfin.
  { intros i Hi. destruct (nth_error (Dispatcher.phases st) i) as [ph|] eqn:Hph.
    - f_equal. eapply returned_all_finished; eauto.
    - apply nth_error_None in Hph. lia. }
  split; [|split].
  - apply nth_error_ext. intros i.
    destruct (Nat.lt_ge_cases i (List.length clinics)) as [Hi|Hi].
    + rewrite (Hcalls _ _ (Hfin _ Hi)), nth_error_repeat_lt by exact Hi. reflexivity.
    + transitivity (@None nat); [|symmetry]; apply nth_error_None;
        rewrite ?repeat_length; lia.
  - apply nth_error_ext. intros i. rewrite nth_error_map.
    destruct (nth_error clinics i) as [cc|] eqn:Hcc.
    + assert (i < List.length clinics) as Hi by (apply nth_error_Some; congruence).
      rewrite (Hstore _ _ _ (Hfin _ Hi) Hcc). reflexivity.
    + apply nth_error_None. apply nth_error_None in Hcc. lia.
  - unfold Dispatcher.in_flight.
    destruct (Dispatcher.count Dispatcher.is_calling (Dispatcher.phases st)) eqn:Hc;
      [reflexivity|].
    destruct (count_find Dispatcher.is_calling (Dispatcher.phases st))
      as (i & ph & Hph & Hcalling); [lia|].
    rewrite (returned_all_finished _ _ _ _ Hinv Hret Hph) in Hcalling. discriminate.
Qed.

(** A goroutine that has been started and has not finished can take its
    next step, when no call panics. *)
Lemma goroutine_moves (clinics : list Clinic) (st : Dispatcher.state Clinic)
    (i : nat) (ph : Dispatcher.phase) :
  inv clinics st -> Dispatcher.crashed st = false ->
  (forall cc, In cc clinics -> exists out, doGeocodeClinic cc = Ok out) ->
  nth_error (Dispatcher.phases st) i = Some ph -> Dispatcher.active ph = true ->
  exists st', step st st' /\ Dispatcher.crashed st' = false
              /\ Dispatcher.measure st' < Dispatcher.measure st.
Proof.
  intros Hinv Hrun Hok Hph Hactive.
  pose proof Hinv as [Hlen Hslen Hclen _ _ _ Hlim Hwg _ _ Hcalls Hstore].
  assert (forall ph', Dispatcher.rank ph' < Dispatcher.rank ph ->
            forall pc' nx lm w stc cl er,
              pc' = Dispatcher.pc st -> nx = Dispatcher.next st ->
              List.length stc = List.length (Dispatcher.store st) ->
              Dispatcher.measure
                (Dispatcher.mkState Clinic pc' nx lm w
                   (Dispatcher.upd i ph' (Dispatcher.phases st)) stc cl er false)
              < Dispatcher.measure st) as Hless.
  { intros ph' Hrank pc' nx lm w stc cl er -> -> Hstc.
    unfold Dispatcher.measure. proj. rewrite Hstc.
    pose proof (list_sum_rank_upd i ph ph' _ Hph). lia. }
  destruct (counts_upd i ph ph _ Hph) as (_ & _ & _ & C4 & C5).
  destruct ph; try discriminate Hactive.
  - eexists. split; [eapply Dispatcher.g_enter; eauto using Hcalls|].
    split; [reflexivity|]. apply Hless; simpl; auto.
  - assert (i < List.length clinics) as Hi.
    { rewrite <- Hlen. apply nth_error_Some. congruence. }
    destruct (nth_error clinics i) as [cc|] eqn:Hcc;
      [|apply nth_error_None in Hcc; lia].
    destruct (Hok cc) as [out Hout]; [eapply nth_error_In; eauto|].
    eexists. split.
    { eapply Dispatcher.g_return with (i := i) (cc := cc) (out := out); auto.
      rewrite (Hstore _ _ _ Hph Hcc). reflexivity. }
    split; [reflexivity|]. apply Hless; simpl; auto. apply upd_length.
  - eexists. split; [eapply Dispatcher.g_receive; eauto|].
    + specialize (C4 eq_refl). lia.
    + split; [reflexivity|]. apply Hless; simpl; auto.
  - eexists. split; [eapply Dispatcher.g_done; eauto|].
    + specialize (C5 eq_refl). lia.
    + split; [reflexivity|]. apply Hless; simpl; auto.
Qed.

(** No deadlock: as long as [wg.Wait()] has not returned some goroutine can
    take a step, and each step brings the return nearer. *)
Lemma progress (clinics : list Clinic) (st : Dispatcher.state Clinic) :
  inv clinics st -> Dispatcher.crashed st = false ->
  (forall cc, In cc clinics -> exists out, doGeocodeClinic cc = Ok out) ->
  Dispatcher.pc st <> Dispatcher.Returned ->
  exists st', step st st' /\ Dispatcher.crashed st' = false
              /\ Dispatcher.measure st' < Dispatcher.measure st.
Proof.
  intros Hinv Hrun Hok Hpc.
  pose proof Hinv as [Hlen Hslen Hclen Hnext Hfresh _ Hlim Hwg Hcap Hat _ _].
  destruct (Dispatcher.pc st) eqn:Hpc0; try congruence.
  - destruct (Nat.lt_ge_cases (Dispatcher.next st) (List.length (Dispatcher.store st)))
      as [Hlt|Hge].
    + eexists. split; [apply Dispatcher.main_add; auto|]. split; [reflexivity|].
      unfold Dispatcher.measure. proj. rewrite Hpc0. lia.
    + eexists. split; [apply Dispatcher.main_end; auto|]. split; [reflexivity|].
      unfold Dispatcher.measure. proj. rewrite Hpc0. lia.
  - destruct (Nat.lt_ge_cases (Dispatcher.limiter st) Dispatcher.capacity)
      as [Hlt|Hge].
    + eexists. split; [apply Dispatcher.main_send; auto|]. split; [reflexivity|].
      unfold Dispatcher.measure. proj. rewrite Hpc0. lia.
    + destruct (count_find Dispatcher.holds_slot (Dispatcher.phases st))
        as (i & ph & Hph & Hslot).
      { unfold Dispatcher.capacity in Hge. lia. }
      apply (goroutine_moves clinics st i ph); auto.
      destruct ph; try discriminate Hslot; reflexivity.
  - assert (nth_error (Dispatcher.phases st) (Dispatcher.next st)
            = Some Dispatcher.NotStarted) as Hph by (apply Hfresh; lia).
    eexists. split; [apply Dispatcher.main_go; auto|]. split; [reflexivity|].
    unfold Dispatcher.measure. proj. rewrite Hpc0.
    pose proof (list_sum_rank_upd _ _ Dispatcher.Spawned _ Hph). simpl in *. lia.
  - destruct (Z.eq_dec (Dispatcher.wg st) 0) as [Hzero|Hpos].
    + eexists. split; [apply Dispatcher.main_wait; auto|]. split; [reflexivity|].
      unfold Dispatcher.measure. proj. rewrite Hpc0. lia.
    + destruct (count_find Dispatcher.active (Dispatcher.phases st))
        as (i & ph & Hph & Hactive); [lia|].
      apply (goroutine_moves clinics st i ph); auto.
Qed.

(** Every run can be carried on until [wg.Wait()] returns, when no call
    panics. *)
Lemma completes (clinics : list Clinic) (st : Dispatcher.state Clinic) :
  (forall cc, In cc clinics -> exists out, doGeocodeClinic cc = Ok out) ->
  reachable clinics st -> Dispatcher.crashed st = false ->
  exists st', reachable clinics st' /\ Dispatcher.pc st' = Dispatcher.Returned.
Proof.
  intros Hok. remember (Dispatcher.measure st) as m eqn:Hm.
  revert st Hm. induction m as [m IH] using lt_wf_ind. intros st -> Hreach Hrun.
  destruct (Dispatcher.pc st) eqn:Hpc;
    try (destruct (progress clinics st) as (st1 & Hstep & Hrun1 & Hless);
         [apply reachable_inv; assumption | assumption | assumption | congruence |];
         apply (IH _ Hless st1 eq_refl); [econstructor; eauto | assumption]).
  exists st. auto.
Qed.

Lemma init_completes (clinics : list Clinic) :
  (forall cc, In cc clinics -> exists out, doGeocodeClinic cc = Ok out) ->
  exists st, reachable clinics st /\ Dispatcher.pc st = Dispatcher.Returned.
Proof.
  intros Hok. apply (completes clinics (Dispatcher.init clinics) Hok);
    [constructor | reflexivity].
Qed.


End DispatcherFacts.

(** ** The parser of the sibling variant *)

(** Every record the variant's parser appends has an address: the test
    [address != ""] stands before the only [append]. *)
Lemma Variant_Parse_loop_addresses (n : nat) :
  forall (lines : list string) (prevMode0 mode0 : Z)
         (clinics0 clinics1 : list Variant.Clinic),
    List.length lines <= n ->
    Forall (fun c => Variant.RawAddress c <> "") clinics0 ->
    Variant.Parse_loop lines prevMode0 mode0 clinics0 = Ok clinics1 ->
    Forall (fun c => Variant.RawAddress c <> "") clinics1.
Proof.
  induction n as [|n IH]; intros lines prevMode0 mode0 clinics0 clinics1 Hlen Hall;
    destruct lines as [|text rest]; cbn [Variant.Parse_loop List.length] in *;
    try lia; try (intros [= <-]; exact Hall).
  destruct (String.eqb (strings.TrimSpace text) "") eqn:Hblank.
  { apply IH; [lia | exact Hall]. }
  destruct (index (strings.TrimSpace text) 0) as [a|msg]; cbn [bind];
    [|discriminate].
  destruct (if unicode.IsNumber a
            then b <- index (strings.TrimSpace text) 1;; Ok (Ascii.eqb b ".")
            else Ok false) as [header|msg]; cbn [bind]; [|discriminate].
  destruct (if header then (Variant._MODE_NONE, Variant._MODE_SECTION)
            else if (mode0 =? Variant._MODE_SECTION)%Z
                 then (mode0, Variant._MODE_ADDRESS)
                 else (prevMode0, mode0)) as [prevMode1 mode1].
  destruct (mode1 =? Variant._MODE_SECTION)%Z; [apply IH; [lia | exact Hall]|].
  destruct (mode1 =? Variant._MODE_ADDRESS)%Z; [|apply IH; [lia | exact Hall]].
  destruct rest as [|text2 rest']; [intros [= <-]; exact Hall|].
  cbn [List.length] in Hlen.
  destruct (String.eqb (strings.TrimSpace text2) "") eqn:Haddr; cbn [negb].
  - apply IH; [lia | exact Hall].
  - apply IH; [lia|]. apply Forall_app. split; [exact Hall|].
    constructor; [|constructor]. cbn [Variant.RawAddress].
    apply String.eqb_neq. exact Haddr.
Qed.

Lemma Variant_Parse_addresses (p : Variant.parser)
    (clinics0 clinics1 : list Variant.Clinic) (e : option string) :
  Forall (fun c => Variant.RawAddress c <> "") clinics0 ->
  Variant.Parse p clinics0 = Ok (e, clinics1) ->
  Forall (fun c => Variant.RawAddress c <> "") clinics1.
Proof.
  unfold Variant.Parse. intros Hall.
  destruct (Variant.Parse_loop (bufio.tokens (Variant.s p)) (Variant.prevMode p)
              (Variant.mode p) clinics0) as [cs|msg] eqn:Hloop; cbn [bind];
    [|discriminate].
  intros [= _ <-]. eapply Variant_Parse_loop_addresses; eauto.
Qed.

(** * The claims *)



(** C4: in both files a call of [doGeocodeClinic] that returns an error
    leaves the record as it was, whatever the network, the decoder and the
    number parser do. *)
Theorem failed_call_keeps_record :
  forall (P : Platform),
    (forall (cc : GenPoints.Clinic) (out : outcome GenPoints.Clinic) (e : error),
        GenPoints.doGeocodeClinic cc = Ok out -> returned out = Some e ->
        record out = cc)
    /\ (forall (cc : Variant.Clinic) (out : outcome Variant.Clinic) (e : error),
        Variant.doGeocodeClinic cc = Ok out -> returned out = Some e ->
        record out = cc).
Proof.
  intros P. split.
  - apply GenPoints_error_keeps_record.
  - apply Variant_error_keeps_record.
Qed.

Lemma failed_call_keeps_record_witness :
  (@GenPoints.doGeocodeClinic (Stub.one_result "37.6" "Main St 1, Springfield")
     (GenPoints.mkClinic "ClinicA" "Main St 1" "555-1234" "" [])
   = Ok (mkOutcome (Some (ErrBadPoints "37.6"))
           (GenPoints.mkClinic "ClinicA" "Main St 1" "555-1234" "" [])
           ["https://geocode-maps.yandex.ru/1.x/?format=json&geocode=Main+St+1&kind=house&lang=ru_RU"])
   /\ record (mkOutcome (Some (ErrBadPoints "37.6"))
                (GenPoints.mkClinic "ClinicA" "Main St 1" "555-1234" "" [])
                ["https://geocode-maps.yandex.ru/1.x/?format=json&geocode=Main+St+1&kind=house&lang=ru_RU"])
       = GenPoints.mkClinic "ClinicA" "Main St 1" "555-1234" "" [])
  /\ (@Variant.doGeocodeClinic (Stub.one_result "37.6 north" "Main St 1, Springfield")
        (Variant.mkClinic "ClinicA" "Main St 1" "" [])
      = Ok (mkOutcome (Some (ErrLib "strconv.ParseFloat: invalid syntax"))
              (Variant.mkClinic "ClinicA" "Main St 1" "" [])
              ["https://geocode-maps.yandex.ru/1.x/?format=json&geocode=Main+St+1&kind=house&lang=ru_RU"])
      /\ record (mkOutcome (Some (ErrLib "strconv.ParseFloat: invalid syntax"))
                   (Variant.mkClinic "ClinicA" "Main St 1" "" [])
                   ["https://geocode-maps.yandex.ru/1.x/?format=json&geocode=Main+St+1&kind=house&lang=ru_RU"])
          = Variant.mkClinic "ClinicA" "Main St 1" "" []).
Proof.
  split; (split; [reflexivity|]).
  - destruct (failed_call_keeps_record (Stub.one_result "37.6" "Main St 1, Springfield"))
      as [Hgen _].
    apply (Hgen (GenPoints.mkClinic "ClinicA" "Main St 1" "555-1234" "" []) _
             (ErrBadPoints "37.6")); reflexivity.
  - destruct (failed_call_keeps_record
                (Stub.one_result "37.6 north" "Main St 1, Springfield")) as [_ Hvar].
    apply (Hvar (Variant.mkClinic "ClinicA" "Main St 1" "" []) _
             (ErrLib "strconv.ParseFloat: invalid syntax")); reflexivity.
Defined.

(** C5: gen_points.go answers a response with no result by the error made
    for it, the record as it was; the sibling variant reads the first
    result without a look at the length, and panics. *)
Theorem no_result_error_but_variant_panics :
  forall (P : Platform),
    (forall (cc : GenPoints.Clinic) (resp : Response) (geoResp : geocodeResponse),
        GenPoints.RawAddress cc <> "" ->
        http_Get (geocode_url (GenPoints.RawAddress cc)) = inr resp ->
        StatusCode resp = StatusOK ->
        json_Decode (Body resp) = inr geoResp ->
        FeatureMember geoResp = [] ->
        GenPoints.doGeocodeClinic cc
        = Ok (mkOutcome (Some (ErrNoGeoObject geoResp)) cc
                [geocode_url (GenPoints.RawAddress cc)]))
    /\ (forall (cc : Variant.Clinic) (resp : Response) (geoResp : geocodeResponse),
        http_Get (geocode_url (Variant.RawAddress cc)) = inr resp ->
        StatusCode resp = StatusOK ->
        json_Decode (Body resp) = inr geoResp ->
        FeatureMember geoResp = [] ->
        Variant.doGeocodeClinic cc = Panic "index out of range").
Proof.
  intros P. split.
  - apply GenPoints_no_result.
  - apply Variant_no_result.
Qed.

Lemma no_result_error_but_variant_panics_witness :
  @GenPoints.doGeocodeClinic Stub.no_result
     (GenPoints.mkClinic "ClinicA" "Main St 1" "555-1234" "" [])
  = Ok (mkOutcome (Some (ErrNoGeoObject (mkGeocodeResponse [])))
          (GenPoints.mkClinic "ClinicA" "Main St 1" "555-1234" "" [])
          [geocode_url "Main St 1"])
  /\ @Variant.doGeocodeClinic Stub.no_result
       (Variant.mkClinic "ClinicA" "Main St 1" "" [])
     = Panic "index out of range".
Proof.
  destruct (no_result_error_but_variant_panics Stub.no_result) as [Hgen Hvar].
  split.
  - apply (Hgen (GenPoints.mkClinic "ClinicA" "Main St 1" "555-1234" "" [])
             (mkResponse StatusOK "status" "body") (mkGeocodeResponse []));
      try reflexivity.
    discriminate.
  - apply (Hvar (Variant.mkClinic "ClinicA" "Main St 1" "" [])
             (mkResponse StatusOK "status" "body") (mkGeocodeResponse []));
      reflexivity.
Defined.

(** C2, as the code has it: in both files a call that succeeds has read
    two numbers off the coordinate string of the first result, each with
    [strconv.ParseFloat] at 32 bits, and stored them second first.  For the
    coordinate string ["37.6 55.75"] the pair stored is 55.75 and the
    binary32 value nearest to 37.6, which is 9856614 / 2^18 =
    37.599998474121094 (here with the mantissa of a [float64],
    9856614 * 2^29). *)
Theorem coordinates_stored_in_reverse :
  (forall (P : Platform) (cc : GenPoints.Clinic) (out : outcome GenPoints.Clinic),
      GenPoints.doGeocodeClinic cc = Ok out -> returned out = None ->
      exists resp geoResp geoObj raw0 raw1 lat long,
        http_Get (geocode_url (GenPoints.RawAddress cc)) = inr resp
        /\ json_Decode (Body resp) = inr geoResp
        /\ nth_error (FeatureMember geoResp) 0 = Some geoObj
        /\ strings.SplitN_space_2 (Pos geoObj) = [raw0; raw1]
        /\ ParseFloat (strings.TrimSpace raw0) = inr lat
        /\ ParseFloat (strings.TrimSpace raw1) = inr long
        /\ record out
           = GenPoints.mkClinic (GenPoints.Name cc) (GenPoints.RawAddress cc)
               (GenPoints.Phone cc) (Text geoObj) [long; lat])
  /\ (forall (P : Platform) (cc : Variant.Clinic) (out : outcome Variant.Clinic),
      Variant.doGeocodeClinic cc = Ok out -> returned out = None ->
      exists resp geoResp geoObj raw0 raw1 p1 p2,
        http_Get (geocode_url (Variant.RawAddress cc)) = inr resp
        /\ json_Decode (Body resp) = inr geoResp
        /\ nth_error (FeatureMember geoResp) 0 = Some geoObj
        /\ strings.SplitN_space_2 (Pos geoObj) = [raw0; raw1]
        /\ ParseFloat (strings.TrimSpace raw0) = inr p1
        /\ ParseFloat (strings.TrimSpace raw1) = inr p2
        /\ record out
           = Variant.mkClinic (Variant.Name cc) (Variant.RawAddress cc)
               (Text geoObj) [p2; p1])
  /\ @GenPoints.doGeocodeClinic (Stub.one_result "37.6 55.75" "Main St 1, Springfield")
       (GenPoints.mkClinic "ClinicA" "Main St 1" "555-1234" "" [])
     = Ok (mkOutcome None
             (GenPoints.mkClinic "ClinicA" "Main St 1" "555-1234"
                "Main St 1, Springfield"
                [Stub.literal 5575 2; S754_finite false (9856614 * 2 ^ 29) (-47)])
             ["https://geocode-maps.yandex.ru/1.x/?format=json&geocode=Main+St+1&kind=house&lang=ru_RU"])
  /\ @Variant.doGeocodeClinic (Stub.one_result "37.6 55.75" "Main St 1, Springfield")
       (Variant.mkClinic "ClinicA" "Main St 1" "" [])
     = Ok (mkOutcome None
             (Variant.mkClinic "ClinicA" "Main St 1" "Main St 1, Springfield"
                [Stub.literal 5575 2; S754_finite false (9856614 * 2 ^ 29) (-47)])
             ["https://geocode-maps.yandex.ru/1.x/?format=json&geocode=Main+St+1&kind=house&lang=ru_RU"])
  /\ strconv.round32 false 376 1 = Some (S754_finite false (9856614 * 2 ^ 29) (-47))
  /\ strconv.round32 false 5575 2 = Some (Stub.literal 5575 2).
Proof.
  split; [intros P; apply GenPoints_success|].
  split; [intros P; apply Variant_success|].
  repeat split; vm_compute; reflexivity.
Qed.

Lemma coordinates_stored_in_reverse_witness :
  exists out : outcome GenPoints.Clinic,
    @GenPoints.doGeocodeClinic (Stub.one_result "37.6 55.75" "Main St 1, Springfield")
      (GenPoints.mkClinic "ClinicA" "Main St 1" "555-1234" "" []) = Ok out
    /\ returned out = None
    /\ exists resp geoResp geoObj raw0 raw1 lat long,
        @http_Get (Stub.one_result "37.6 55.75" "Main St 1, Springfield")
          (geocode_url "Main St 1") = inr resp
        /\ @json_Decode (Stub.one_result "37.6 55.75" "Main St 1, Springfield")
             (Body resp) = inr geoResp
        /\ nth_error (FeatureMember geoResp) 0 = Some geoObj
        /\ strings.SplitN_space_2 (Pos geoObj) = [raw0; raw1]
        /\ strconv.ParseFloat32 (strings.TrimSpace raw0) = inr lat
        /\ strconv.ParseFloat32 (strings.TrimSpace raw1) = inr long
        /\ record out
           = GenPoints.mkClinic "ClinicA" "Main St 1" "555-1234" (Text geoObj)
               [long; lat].
Proof.
  destruct coordinates_stored_in_reverse as (Hgen & _ & Hrun & _).
  eexists. split; [exact Hrun|]. split; [reflexivity|].
  exact (Hgen (Stub.one_result "37.6 55.75" "Main St 1, Springfield") _ _ Hrun eq_refl).
Defined.

(** C2, as the claim has it, fails: for the coordinate string
    ["37.6 55.75"] the second number stored, [m / 2^47], is not 37.6, and
    the pair is not the pair of the [float64] values 55.75 and 37.6: the
    second number is 37.6 rounded to 32 bits. *)
Lemma stored_pair_is_not_the_literal_pair :
  exists (out : outcome GenPoints.Clinic) (m : positive),
    @GenPoints.doGeocodeClinic (Stub.one_result "37.6 55.75" "Main St 1, Springfield")
      (GenPoints.mkClinic "ClinicA" "Main St 1" "555-1234" "" []) = Ok out
    /\ returned out = None
    /\ GenPoints.Points (record out) = [Stub.literal 5575 2; S754_finite false m (-47)]
    /\ (10 * Zpos m <> 376 * 2 ^ 47)%Z
    /\ GenPoints.Points (record out) <> [Stub.literal 5575 2; Stub.literal 376 1].
Proof.
  eexists. exists (9856614 * 2 ^ 29)%positive.
  split; [vm_compute; reflexivity|]. split; [reflexivity|].
  split; [vm_compute; reflexivity|].
  split; vm_compute; intros [=].
Qed.

(** C3, as the code has it: in gen_points.go [doGeocodeClinic] returns the
    error for an empty address at once, with no request made, and a record
    with an empty address is the same at every point of a run of the
    dispatcher; the sibling variant has no such test in
    [doGeocodeClinic], and its parser appends no record with an empty
    address. *)
Theorem empty_address_is_not_geocoded :
  (forall (P : Platform) (cc : GenPoints.Clinic),
      GenPoints.RawAddress cc = "" ->
      GenPoints.doGeocodeClinic cc = Ok (mkOutcome (Some ErrNoRawAddress) cc []))
  /\ (forall (P : Platform) (clinics : list GenPoints.Clinic)
             (st : Dispatcher.state GenPoints.Clinic) (i : nat) (cc : GenPoints.Clinic),
      Dispatcher.reachable GenPoints.doGeocodeClinic clinics st ->
      nth_error clinics i = Some cc ->
      GenPoints.RawAddress cc = "" ->
      nth_error (Dispatcher.store st) i = Some cc)
  /\ (forall (p : Variant.parser) (clinics0 clinics1 : list Variant.Clinic)
             (e : option string),
      Forall (fun c => Variant.RawAddress c <> "") clinics0 ->
      Variant.Parse p clinics0 = Ok (e, clinics1) ->
      Forall (fun c => Variant.RawAddress c <> "") clinics1).
Proof.
  split; [intros P cc; apply GenPoints_empty_address|].
  split; [|exact Variant_Parse_addresses].
  intros P clinics st i cc Hreach Hcc Hempty.
  apply reachable_inv in Hreach as [Hlen _ _ _ _ _ _ _ _ _ _ Hstore].
  assert (i < List.length clinics) as Hi by (apply nth_error_Some; congruence).
  destruct (nth_error (Dispatcher.phases st) i) as [ph|] eqn:Hph;
    [|apply nth_error_None in Hph; lia].
  rewrite (Hstore _ _ _ Hph Hcc).
  unfold Dispatcher.geocoded. rewrite (GenPoints_empty_address cc Hempty).
  destruct (Dispatcher.after_call ph); reflexivity.
Qed.

Lemma empty_address_is_not_geocoded_witness :
  (GenPoints.RawAddress (GenPoints.mkClinic "ClinicA" "" "" "" []) = ""
   /\ @GenPoints.doGeocodeClinic (Stub.one_result "37.6 55.75" "Main St 1, Springfield")
        (GenPoints.mkClinic "ClinicA" "" "" "" [])
      = Ok (mkOutcome (Some ErrNoRawAddress) (GenPoints.mkClinic "ClinicA" "" "" "" []) []))
  /\ (Variant.Parse
        (Variant.newParser
           (String.concat Stub.nl ["1."; "ClinicA"; "Main St 1"; "ClinicB"; ""; ""]))
        []
      = Ok (None, [Variant.mkClinic "ClinicA" "Main St 1" "" []])
      /\ Forall (fun c => Variant.RawAddress c <> "")
           [Variant.mkClinic "ClinicA" "Main St 1" "" []]).
Proof.
  destruct empty_address_is_not_geocoded as (Hclient & _ & Hparser).
  split.
  - split; [reflexivity|].
    apply (Hclient (Stub.one_result "37.6 55.75" "Main St 1, Springfield")
             (GenPoints.mkClinic "ClinicA" "" "" "" [])).
    reflexivity.
  - split; [reflexivity|].
    apply (Hparser
             (Variant.newParser
                (String.concat Stub.nl ["1."; "ClinicA"; "Main St 1"; "ClinicB"; ""; ""]))
             [] [Variant.mkClinic "ClinicA" "Main St 1" "" []] None).
    + constructor.
    + reflexivity.
Defined.

(** C3, as the claim has it, fails in the sibling variant: given a record
    with an empty address its [doGeocodeClinic] requests the URL, returns
    no error and stores what the geocoder answered. *)
Lemma variant_geocodes_empty_address :
  @Variant.doGeocodeClinic (Stub.one_result "37.6 55.75" "Main St 1, Springfield")
    (Variant.mkClinic "ClinicA" "" "" [])
  = Ok (mkOutcome None
          (Variant.mkClinic "ClinicA" "" "Main St 1, Springfield"
             [Stub.literal 5575 2; S754_finite false (9856614 * 2 ^ 29) (-47)])
          ["https://geocode-maps.yandex.ru/1.x/?format=json&geocode=&kind=house&lang=ru_RU"]).
Proof.
  vm_compute. reflexivity.
Qed.

(** ** The scenario of the specification *)

Lemma GenPoints_run_of (P : Platform) (f : string) (p1 : GenPoints.parser)
    (clinics : list GenPoints.Clinic) :
  GenPoints.Parse (GenPoints.mkParser 0) [] f = Ok (p1, clinics) ->
  (exists final, Main.GenPoints_run f final)
  /\ (forall final, Main.GenPoints_run f final ->
        final = map (Dispatcher.geocoded GenPoints.doGeocodeClinic) clinics).
Proof.
  intros Hparse. split.
  - destruct (init_completes _ GenPoints.doGeocodeClinic clinics) as (st & Hreach & Hret).
    { intros cc _. apply GenPoints_doGeocodeClinic_returns. }
    exists (Dispatcher.store st), p1, clinics, st. auto.
  - intros final (p1' & clinics' & st & Hparse' & Hreach & Hret & <-).
    rewrite Hparse in Hparse'. injection Hparse' as _ <-.
    apply (returned_results _ _ _ _ Hreach Hret).
Qed.

(** C6, as the code has it: on the input of the scenario the line ["1."],
    two bytes long, is no section header, the parser is in no role when the
    three lines come, and the blank line appends the empty record, which the
    dispatcher leaves as it is.  Under a header of three bytes or more the
    run ends with the record of the scenario, its address and points set
    from the answer of the geocoder. *)
Theorem scenario_outcome :
  ((exists final,
       @Main.GenPoints_run (Stub.one_result "37.6 55.75" "Main St 1, Springfield")
         Stub.scenario final)
   /\ forall final,
       @Main.GenPoints_run (Stub.one_result "37.6 55.75" "Main St 1, Springfield")
         Stub.scenario final ->
       final = [GenPoints.mkClinic "" "" "" "" []])
  /\ ((exists final,
          @Main.GenPoints_run (Stub.one_result "37.6 55.75" "Main St 1, Springfield")
            Stub.scenario_long_header final)
      /\ forall final,
          @Main.GenPoints_run (Stub.one_result "37.6 55.75" "Main St 1, Springfield")
            Stub.scenario_long_header final ->
          final = [GenPoints.mkClinic "ClinicA" "Main St 1" "555-1234"
                     "Main St 1, Springfield"
                     [Stub.literal 5575 2; S754_finite false (9856614 * 2 ^ 29) (-47)]]).
Proof.
  split.
  - destruct (GenPoints_run_of (Stub.one_result "37.6 55.75" "Main St 1, Springfield")
                Stub.scenario (GenPoints.mkParser GenPoints._MODE_NAME)
                [GenPoints.mkClinic "" "" "" "" []]) as [Hex Hall].
    { vm_compute. reflexivity. }
    split; [exact Hex|].
    intros final Hrun. rewrite (Hall final Hrun). vm_compute. reflexivity.
  - destruct (GenPoints_run_of (Stub.one_result "37.6 55.75" "Main St 1, Springfield")
                Stub.scenario_long_header (GenPoints.mkParser GenPoints._MODE_NAME)
                [GenPoints.mkClinic "ClinicA" "Main St 1" "555-1234" "" []])
      as [Hex Hall].
    { vm_compute. reflexivity. }
    split; [exact Hex|].
    intros final Hrun. rewrite (Hall final Hrun). vm_compute. reflexivity.
Qed.

(** C6, as the claim has it, fails: every run on the input of the scenario
    ends with one record whose name is empty, not ["ClinicA"]. *)
Lemma scenario_record_is_empty :
  (exists final,
      @Main.GenPoints_run (Stub.one_result "37.6 55.75" "Main St 1, Springfield")
        Stub.scenario final)
  /\ (forall final,
        @Main.GenPoints_run (Stub.one_result "37.6 55.75" "Main St 1, Springfield")
          Stub.scenario final ->
        exists c, final = [c] /\ GenPoints.Name c = "" /\ GenPoints.Name c <> "ClinicA"
                  /\ GenPoints.RawAddress c = "" /\ GenPoints.Phone c = ""
                  /\ GenPoints.Address c = "" /\ GenPoints.Points c = []).
Proof.
  destruct (GenPoints_run_of (Stub.one_result "37.6 55.75" "Main St 1, Springfield")
              Stub.scenario (GenPoints.mkParser GenPoints._MODE_NAME)
              [GenPoints.mkClinic "" "" "" "" []]) as [Hex Hall].
  { vm_compute. reflexivity. }
  split; [exact Hex|].
  intros final Hrun. rewrite (Hall final Hrun).
  exists (GenPoints.mkClinic "" "" "" "" []).
  split; [vm_compute; reflexivity|]. repeat split. discriminate.
Qed.

(** * Further properties *)

(** A section header is stored in no field: it sets the role to NAME and
    leaves the record in progress and [clinics] as they are. *)
Theorem section_header_only_resets_role :
  forall (text : string) (v : GenPoints.vars),
    GenPoints.blank text = false ->
    GenPoints.isSection (strings.TrimSpace text) = Ok true ->
    GenPoints.Parse_line text v
    = Ok (GenPoints.mkVars (GenPoints.mkParser GenPoints._MODE_NAME)
            (GenPoints.cc v) (GenPoints.clinics v)).
Proof.
  intros text v Hblank Hsect. unfold GenPoints.blank in Hblank.
  unfold GenPoints.Parse_line. rewrite Hblank, Hsect. reflexivity.
Qed.

Lemma section_header_only_resets_role_witness :
  GenPoints.Parse_line " 12. North "
    (GenPoints.mkVars (GenPoints.mkParser GenPoints._MODE_PHONE)
       (GenPoints.mkClinic "ClinicA" "Main St 1" "" "" []) [])
  = Ok (GenPoints.mkVars (GenPoints.mkParser GenPoints._MODE_NAME)
          (GenPoints.mkClinic "ClinicA" "Main St 1" "" "" []) []).
Proof.
  apply (section_header_only_resets_role " 12. North "
           (GenPoints.mkVars (GenPoints.mkParser GenPoints._MODE_PHONE)
              (GenPoints.mkClinic "ClinicA" "Main St 1" "" "" []) []));
    reflexivity.
Defined.

(** A block of three data lines that begins in the NAME role and ends with
    a blank line appends one record: name, address and phone are the three
    lines, trimmed. *)
Theorem block_of_three_lines :
  forall (v : GenPoints.vars) (name addr phone blank_line : string),
    GenPoints.nextMode (GenPoints.p v) = GenPoints._MODE_NAME ->
    GenPoints.data_line name ->
    GenPoints.data_line addr ->
    GenPoints.data_line phone ->
    GenPoints.blank blank_line = true ->
    GenPoints.Parse_loop [name; addr; phone; blank_line] v
    = Ok (GenPoints.mkVars (GenPoints.mkParser GenPoints._MODE_NAME) GenPoints.zero
            (GenPoints.clinics v
             ++ [GenPoints.mkClinic (strings.TrimSpace name) (strings.TrimSpace addr)
                   (strings.TrimSpace phone)
                   (GenPoints.Address (GenPoints.cc v))
                   (GenPoints.Points (GenPoints.cc v))])).
Proof.
  intros v name addr phone blank_line Hmode Hname Haddr Hphone Hblank.
  cbn [GenPoints.Parse_loop].
  rewrite (Parse_line_data _ _ Hname), Hmode. cbn.
  rewrite (Parse_line_data _ _ Haddr). cbn.
  rewrite (Parse_line_data _ _ Hphone). cbn.
  rewrite Parse_line_blank by exact Hblank. reflexivity.
Qed.

Lemma block_of_three_lines_witness :
  GenPoints.Parse_loop [" ClinicA"; "Main St 1 "; "555-1234"; ""]
    (GenPoints.mkVars (GenPoints.mkParser GenPoints._MODE_NAME) GenPoints.zero [])
  = Ok (GenPoints.mkVars (GenPoints.mkParser GenPoints._MODE_NAME) GenPoints.zero
          [GenPoints.mkClinic "ClinicA" "Main St 1" "555-1234" "" []]).
Proof.
  apply (block_of_three_lines
           (GenPoints.mkVars (GenPoints.mkParser GenPoints._MODE_NAME) GenPoints.zero [])
           " ClinicA" "Main St 1 " "555-1234" "");
    try reflexivity; split; reflexivity.
Defined.




(** ** More on the parser of gen_points.go *)

(** With no role set, as in the parser [main] declares, data lines change
    nothing: what stands before the first section header or blank line is
    dropped. *)
Theorem data_before_first_header_is_dropped :
  forall (lines : list string) (v : GenPoints.vars),
    GenPoints.nextMode (GenPoints.p v) = GenPoints._MODE_NONE ->
    Forall GenPoints.data_line lines ->
    GenPoints.Parse_loop lines v = Ok v.
Proof.
  intros lines v Hmode Hall.
  induction Hall as [|text rest Hd _ IH]; [reflexivity|].
  cbn [GenPoints.Parse_loop]. rewrite (Parse_line_data _ _ Hd), Hmode.
  cbn. exact IH.
Qed.

Lemma data_before_first_header_is_dropped_witness :
  GenPoints.Parse_loop ["ClinicA"; "Main St 1"; "555-1234"]
    (GenPoints.mkVars (GenPoints.mkParser 0) GenPoints.zero [])
  = Ok (GenPoints.mkVars (GenPoints.mkParser 0) GenPoints.zero []).
Proof.
  apply (data_before_first_header_is_dropped ["ClinicA"; "Main St 1"; "555-1234"]
           (GenPoints.mkVars (GenPoints.mkParser 0) GenPoints.zero [])).
  - reflexivity.
  - repeat constructor.
Defined.

(** A section header inside a block does not clear the record in progress:
    the next data line is stored as the name over the one before, and the
    address and phone read before the header stay in the record the next
    blank line appends. *)
Theorem header_keeps_record_in_progress :
  forall (v : GenPoints.vars) (name addr phone head name2 blank_line : string),
    GenPoints.nextMode (GenPoints.p v) = GenPoints._MODE_NAME ->
    GenPoints.data_line name ->
    GenPoints.data_line addr ->
    GenPoints.data_line phone ->
    GenPoints.blank head = false ->
    GenPoints.isSection (strings.TrimSpace head) = Ok true ->
    GenPoints.data_line name2 ->
    GenPoints.blank blank_line = true ->
    GenPoints.Parse_loop [name; addr; phone; head; name2; blank_line] v
    = Ok (GenPoints.mkVars (GenPoints.mkParser GenPoints._MODE_NAME) GenPoints.zero
            (GenPoints.clinics v
             ++ [GenPoints.mkClinic (strings.TrimSpace name2) (strings.TrimSpace addr)
                   (strings.TrimSpace phone)
                   (GenPoints.Address (GenPoints.cc v))
                   (GenPoints.Points (GenPoints.cc v))])).
Proof.
  intros v name addr phone head name2 blank_line Hmode Hname Haddr Hphone
    Hhead Hsect Hname2 Hblank.
  cbn [GenPoints.Parse_loop].
  rewrite (Parse_line_data _ _ Hname), Hmode. cbn.
  rewrite (Parse_line_data _ _ Haddr). cbn.
  rewrite (Parse_line_data _ _ Hphone). cbn.
  unfold GenPoints.blank in Hhead.
  unfold GenPoints.Parse_line at 1. rewrite Hhead, Hsect. cbn.
  rewrite (Parse_line_data _ _ Hname2). cbn.
  rewrite Parse_line_blank by exact Hblank. reflexivity.
Qed.

Lemma header_keeps_record_in_progress_witness :
  GenPoints.Parse_loop
    ["ClinicA"; "Main St 1"; "555-1234"; "2. South"; "ClinicB"; ""]
    (GenPoints.mkVars (GenPoints.mkParser GenPoints._MODE_NAME) GenPoints.zero [])
  = Ok (GenPoints.mkVars (GenPoints.mkParser GenPoints._MODE_NAME) GenPoints.zero
          [GenPoints.mkClinic "ClinicB" "Main St 1" "555-1234" "" []]).
Proof.
  apply (header_keeps_record_in_progress
           (GenPoints.mkVars (GenPoints.mkParser GenPoints._MODE_NAME) GenPoints.zero [])
           "ClinicA" "Main St 1" "555-1234" "2. South" "ClinicB" "");
    try reflexivity; split; reflexivity.
Defined.

Lemma Parse_line_frame (text : string) (p0 : GenPoints.parser) (c : GenPoints.Clinic)
    (before clinics0 : list GenPoints.Clinic) (v : GenPoints.vars) :
  GenPoints.Parse_line text (GenPoints.mkVars p0 c clinics0) = Ok v ->
  GenPoints.Parse_line text (GenPoints.mkVars p0 c (before ++ clinics0))
  = Ok (GenPoints.mkVars (GenPoints.p v) (GenPoints.cc v) (before ++ GenPoints.clinics v)).
Proof.
  unfold GenPoints.Parse_line.
  cbn [GenPoints.p GenPoints.cc GenPoints.clinics].
  destruct (String.eqb (strings.TrimSpace text) "").
  - intros [= <-]. cbn. rewrite app_assoc. reflexivity.
  - destruct (GenPoints.isSection (strings.TrimSpace text)) as [[]|msg]; cbn [bind];
      [intros [= <-]; reflexivity | | discriminate].
    repeat match goal with |- context [if ?b then _ else _] => destruct b end;
      intros [= <-]; reflexivity.
Qed.

Lemma Parse_loop_frame (lines : list string) (p0 : GenPoints.parser)
    (c : GenPoints.Clinic) (before clinics0 : list GenPoints.Clinic)
    (v : GenPoints.vars) :
  GenPoints.Parse_loop lines (GenPoints.mkVars p0 c clinics0) = Ok v ->
  GenPoints.Parse_loop lines (GenPoints.mkVars p0 c (before ++ clinics0))
  = Ok (GenPoints.mkVars (GenPoints.p v) (GenPoints.cc v) (before ++ GenPoints.clinics v)).
Proof.
  revert p0 c clinics0 v.
  induction lines as [|text rest IH]; intros p0 c clinics0 v; cbn [GenPoints.Parse_loop].
  - intros [= <-]. reflexivity.
  - destruct (GenPoints.Parse_line text (GenPoints.mkVars p0 c clinics0))
      as [v1|msg] eqn:Hline; cbn [bind]; [|discriminate].
    rewrite (Parse_line_frame _ _ _ before _ _ Hline). cbn [bind].
    destruct v1 as [p1 c1 clinics1]. apply IH.
Qed.

(** A blank line is where a file can be cut: the records of the whole are
    those of the part up to the blank line, followed by those of the rest
    read by a parser in the NAME role with nothing in progress. *)
Theorem blank_line_resets_parser :
  forall (p0 : GenPoints.parser) (clinics0 : list GenPoints.Clinic)
         (before after : list string) (blank_line : string) (e : option string),
    GenPoints.blank blank_line = true ->
    exists p1 p2 clinics1 clinics2,
      GenPoints.Parse_scanner p0 clinics0 (bufio.mkScanner (before ++ [blank_line]) e)
      = Ok (p1, clinics1)
      /\ GenPoints.Parse_scanner (GenPoints.mkParser GenPoints._MODE_NAME) []
           (bufio.mkScanner after e)
         = Ok (p2, clinics2)
      /\ GenPoints.Parse_scanner p0 clinics0
           (bufio.mkScanner (before ++ blank_line :: after) e)
         = Ok (p2, clinics1 ++ clinics2).
Proof.
  intros p0 clinics0 before after blank_line e Hblank.
  unfold GenPoints.Parse_scanner. cbn [bufio.tokens].
  change (before ++ blank_line :: after) with (before ++ [blank_line] ++ after).
  rewrite app_assoc, (Parse_loop_app (before ++ [blank_line]) after).
  rewrite (Parse_loop_app before [blank_line]).
  destruct (Parse_loop_returns before (GenPoints.mkVars p0 GenPoints.zero clinics0))
    as [v0 ->].
  cbn [bind GenPoints.Parse_loop]. rewrite Parse_line_blank by exact Hblank.
  cbn [bind GenPoints.p GenPoints.clinics].
  destruct (Parse_loop_returns after
              (GenPoints.mkVars (GenPoints.mkParser GenPoints._MODE_NAME)
                 GenPoints.zero [])) as [v2 Hv2].
  rewrite Hv2. cbn [bind].
  pose proof (Parse_loop_frame after _ _ (GenPoints.clinics v0 ++ [GenPoints.cc v0])
                [] v2 Hv2) as Hframe.
  rewrite app_nil_r in Hframe. rewrite Hframe. cbn [bind GenPoints.p GenPoints.clinics].
  eexists _, _, _, _. repeat split.
Qed.

Lemma blank_line_resets_parser_witness :
  exists p1 p2 clinics1 clinics2,
    GenPoints.Parse_scanner (GenPoints.mkParser 0) []
      (bufio.mkScanner (["1. North"; "ClinicA"; "Main St 1"] ++ [" "]) None)
    = Ok (p1, clinics1)
    /\ GenPoints.Parse_scanner (GenPoints.mkParser GenPoints._MODE_NAME) []
         (bufio.mkScanner ["ClinicB"; "Side St 2"; ""] None)
       = Ok (p2, clinics2)
    /\ GenPoints.Parse_scanner (GenPoints.mkParser 0) []
         (bufio.mkScanner
            (["1. North"; "ClinicA"; "Main St 1"] ++ " " :: ["ClinicB"; "Side St 2"; ""])
            None)
       = Ok (p2, clinics1 ++ clinics2).
Proof.
  apply (blank_line_resets_parser (GenPoints.mkParser 0) []
           ["1. North"; "ClinicA"; "Main St 1"] ["ClinicB"; "Side St 2"; ""] " " None).
  reflexivity.
Defined.

(** The parser sets neither the address the geocoder gives nor the points:
    in what [Parse] appends both are empty. *)
Theorem parsed_records_are_not_geocoded :
  forall (p0 : GenPoints.parser) (r : bufio.Scanner) (p1 : GenPoints.parser)
         (clinics1 : list GenPoints.Clinic),
    GenPoints.Parse_scanner p0 [] r = Ok (p1, clinics1) ->
    Forall (fun c => GenPoints.Address c = "" /\ GenPoints.Points c = []) clinics1.
Proof.
  intros p0 r p1 clinics1. unfold GenPoints.Parse_scanner.
  assert (forall lines v v',
             (GenPoints.Address (GenPoints.cc v) = ""
              /\ GenPoints.Points (GenPoints.cc v) = []) ->
             Forall (fun c => GenPoints.Address c = "" /\ GenPoints.Points c = [])
               (GenPoints.clinics v) ->
             GenPoints.Parse_loop lines v = Ok v' ->
             Forall (fun c => GenPoints.Address c = "" /\ GenPoints.Points c = [])
               (GenPoints.clinics v')) as Hloop.
  { induction lines as [|text rest IH]; intros v v' Hcc Hall; cbn [GenPoints.Parse_loop].
    - intros [= <-]. exact Hall.
    - destruct (GenPoints.Parse_line text v) as [v1|msg] eqn:Hline; cbn [bind];
        [|discriminate].
      apply IH.
      + revert Hline. unfold GenPoints.Parse_line.
        destruct (String.eqb (strings.TrimSpace text) "");
          [intros [= <-]; split; reflexivity|].
        destruct (GenPoints.isSection (strings.TrimSpace text)) as [[]|msg];
          cbn [bind]; [intros [= <-]; exact Hcc | | discriminate].
        repeat match goal with |- context [if ?b then _ else _] => destruct b end;
          intros [= <-]; exact Hcc.
      + rewrite (Parse_line_clinics _ _ _ Hline).
        apply Forall_app. split; [exact Hall|].
        destruct (GenPoints.blank text); constructor; [exact Hcc | constructor]. }
  destruct (GenPoints.Parse_loop (bufio.tokens r)
              (GenPoints.mkVars p0 GenPoints.zero [])) as [v|msg] eqn:Hrun;
    cbn [bind]; [|discriminate].
  intros [= _ <-]. eapply Hloop; [| |exact Hrun]; [split; reflexivity | constructor].
Qed.

Lemma parsed_records_are_not_geocoded_witness :
  GenPoints.Parse_scanner (GenPoints.mkParser 0) []
    (bufio.mkScanner ["1. North"; "ClinicA"; "Main St 1"; ""] None)
  = Ok (GenPoints.mkParser GenPoints._MODE_NAME,
        [GenPoints.mkClinic "ClinicA" "Main St 1" "" "" []])
  /\ Forall (fun c => GenPoints.Address c = "" /\ GenPoints.Points c = [])
       [GenPoints.mkClinic "ClinicA" "Main St 1" "" "" []].
Proof.
  split; [reflexivity|].
  apply (parsed_records_are_not_geocoded (GenPoints.mkParser 0)
           (bufio.mkScanner ["1. North"; "ClinicA"; "Main St 1"; ""] None)
           (GenPoints.mkParser GenPoints._MODE_NAME)).
  reflexivity.
Defined.

(** ** More on the parser of the sibling variant *)

(** The first [if] of the loop is the header test. *)
Lemma Variant_Parse_loop_step (text : string) (rest : list string)
    (prevMode0 mode0 : Z) (clinics : list Variant.Clinic) (is_header : bool) :
  String.eqb (strings.TrimSpace text) "" = false ->
  VariantLines.header (strings.TrimSpace text) = Ok is_header ->
  Variant.Parse_loop (text :: rest) prevMode0 mode0 clinics
  = let '(prevMode1, mode1) :=
      if is_header then (Variant._MODE_NONE, Variant._MODE_SECTION)
      else if Z.eqb mode0 Variant._MODE_SECTION then (mode0, Variant._MODE_ADDRESS)
      else (prevMode0, mode0) in
    if Z.eqb mode1 Variant._MODE_SECTION
    then Variant.Parse_loop rest prevMode1 mode1 clinics
    else if Z.eqb mode1 Variant._MODE_ADDRESS then
      match rest with
      | [] => Variant.Parse_loop rest prevMode1 mode1 clinics
      | text2 :: rest' =>
          if negb (String.eqb (strings.TrimSpace text2) "")
          then Variant.Parse_loop rest' prevMode1 mode1
                 (clinics ++ [Variant.mkClinic (strings.TrimSpace text)
                                (strings.TrimSpace text2) "" []])
          else Variant.Parse_loop rest' prevMode1 mode1 clinics
      end
    else Variant.Parse_loop rest prevMode1 mode1 clinics.
Proof.
  intros Hblank Hhead. cbn [Variant.Parse_loop]. rewrite Hblank.
  unfold VariantLines.header in Hhead.
  destruct (index (strings.TrimSpace text) 0) as [a|msg]; cbn [bind] in *;
    [|discriminate].
  rewrite Hhead. reflexivity.
Qed.

(** [prevMode] is written and never read: the records do not depend on
    it. *)
Theorem variant_prevMode_is_never_read :
  forall (lines : list string) (prevMode0 prevMode0' mode0 : Z)
         (clinics : list Variant.Clinic),
    Variant.Parse_loop lines prevMode0 mode0 clinics
    = Variant.Parse_loop lines prevMode0' mode0 clinics.
Proof.
  intros lines. remember (List.length lines) as n eqn:Hn.
  assert (List.length lines <= n) as Hlen by lia. clear Hn.
  revert lines Hlen. induction n as [|n IH];
    intros lines Hlen prevMode0 prevMode0' mode0 clinics;
    destruct lines as [|text rest]; cbn [List.length] in Hlen; try lia;
    try reflexivity.
  cbn [Variant.Parse_loop].
  destruct (String.eqb (strings.TrimSpace text) ""); [apply IH; lia|].
  destruct (index (strings.TrimSpace text) 0) as [a|msg]; cbn [bind]; [|reflexivity].
  destruct (if unicode.IsNumber a
            then b <- index (strings.TrimSpace text) 1;; Ok (Ascii.eqb b ".")
            else Ok false) as [[]|msg]; cbn [bind]; [| |reflexivity].
  - cbn. apply IH; lia.
  - destruct (mode0 =? Variant._MODE_SECTION)%Z eqn:Hmode.
    + cbn. destruct rest as [|text2 rest']; [reflexivity|].
      cbn [List.length] in Hlen.
      destruct (negb (String.eqb (strings.TrimSpace text2) "")); apply IH; lia.
    + rewrite Hmode. destruct (mode0 =? Variant._MODE_ADDRESS)%Z.
      * destruct rest as [|text2 rest']; [reflexivity|].
        cbn [List.length] in Hlen.
        destruct (negb (String.eqb (strings.TrimSpace text2) "")); apply IH; lia.
      * apply IH; lia.
Qed.

(** The variant's [Parse] returns, with the scanner's error and [clinics]
    only appended to, when no line is one numeric byte alone. *)
Theorem variant_parse_returns_on_safe_lines :
  forall (p : Variant.parser) (clinics0 : list Variant.Clinic),
    Forall VariantLines.safe (bufio.tokens (Variant.s p)) ->
    exists added,
      Variant.Parse p clinics0 = Ok (bufio.err (Variant.s p), clinics0 ++ added).
Proof.
  intros p clinics0 Hsafe. unfold Variant.Parse.
  assert (forall n lines prevMode0 mode0 clinics,
             List.length lines <= n -> Forall VariantLines.safe lines ->
             exists added,
               Variant.Parse_loop lines prevMode0 mode0 clinics = Ok (clinics ++ added))
    as Hloop.
  { induction n as [|n IH]; intros lines prevMode0 mode0 clinics Hlen Hall;
      destruct lines as [|text rest]; cbn [List.length] in Hlen; try lia;
      try (exists []; rewrite app_nil_r; reflexivity).
    inversion Hall as [|? ? Htext Hrest]; subst.
    destruct (String.eqb (strings.TrimSpace text) "") eqn:Hblank.
    { cbn [Variant.Parse_loop]. rewrite Hblank. apply IH; [lia | exact Hrest]. }
    assert (exists is_header,
               VariantLines.header (strings.TrimSpace text) = Ok is_header) as [h Hh].
    { unfold VariantLines.header, VariantLines.safe in *.
      destruct (strings.TrimSpace text) as [|a [|b line]]; [discriminate| |].
      - cbn. rewrite (Htext a eq_refl). eauto.
      - cbn. destruct (unicode.IsNumber a); eauto. }
    rewrite (Variant_Parse_loop_step _ _ _ _ _ _ Hblank Hh).
    destruct (if h then (Variant._MODE_NONE, Variant._MODE_SECTION)
              else if (mode0 =? Variant._MODE_SECTION)%Z
                   then (mode0, Variant._MODE_ADDRESS)
                   else (prevMode0, mode0)) as [prevMode1 mode1].
    destruct (mode1 =? Variant._MODE_SECTION)%Z; [apply IH; [lia | exact Hrest]|].
    destruct (mode1 =? Variant._MODE_ADDRESS)%Z; [|apply IH; [lia | exact Hrest]].
    destruct rest as [|text2 rest']; [exists []; rewrite app_nil_r; reflexivity|].
    cbn [List.length] in Hlen. inversion Hrest as [|? ? _ Hrest']; subst.
    destruct (negb (String.eqb (strings.TrimSpace text2) "")).
    - destruct (IH rest' prevMode1 mode1
                  (clinics ++ [Variant.mkClinic (strings.TrimSpace text)
                                 (strings.TrimSpace text2) "" []]))
        as [added Hadded]; [lia | exact Hrest'|].
      rewrite Hadded, <- app_assoc. eauto.
    - apply IH; [lia | exact Hrest']. }
  destruct (Hloop _ (bufio.tokens (Variant.s p)) (Variant.prevMode p) (Variant.mode p)
              clinics0 (le_n _) Hsafe) as [added ->].
  cbn [bind]. eauto.
Qed.

Lemma variant_parse_returns_on_safe_lines_witness :
  Forall VariantLines.safe ["1. North"; "ClinicA"; "Main St 1"; "55"; ""]
  /\ exists added,
      Variant.Parse
        (Variant.mkParser
           (bufio.mkScanner ["1. North"; "ClinicA"; "Main St 1"; "55"; ""] None)
           Variant._MODE_NONE Variant._MODE_NONE) []
      = Ok (None, [] ++ added).
Proof.
  assert (Forall VariantLines.safe ["1. North"; "ClinicA"; "Main St 1"; "55"; ""])
    as Hsafe.
  { repeat constructor; intros a Ha; vm_compute in Ha; discriminate Ha. }
  split; [exact Hsafe|].
  apply (variant_parse_returns_on_safe_lines
           (Variant.mkParser
              (bufio.mkScanner ["1. North"; "ClinicA"; "Main St 1"; "55"; ""] None)
              Variant._MODE_NONE Variant._MODE_NONE) [] Hsafe).
Defined.

(** The variant panics whenever the first line that is not blank is one
    numeric byte alone, whatever role it is in and whatever follows. *)
Theorem variant_panics_on_single_digit_line :
  forall (blanks : list string) (text : string) (a : ascii) (rest : list string)
         (prevMode0 mode0 : Z) (clinics : list Variant.Clinic),
    Forall (fun t => String.eqb (strings.TrimSpace t) "" = true) blanks ->
    strings.TrimSpace text = String a EmptyString ->
    unicode.IsNumber a = true ->
    Variant.Parse_loop (blanks ++ text :: rest) prevMode0 mode0 clinics
    = Panic "index out of range".
Proof.
  intros blanks text a rest prevMode0 mode0 clinics Hblanks Htext Hnum.
  induction Hblanks as [|t blanks Ht _ IH]; cbn [app Variant.Parse_loop].
  - rewrite Htext. cbn. rewrite Hnum. reflexivity.
  - rewrite Ht. exact IH.
Qed.

Lemma variant_panics_on_single_digit_line_witness :
  Variant.Parse_loop (["  "; ""] ++ " 7 " :: ["ClinicA"; "Main St 1"])
    Variant._MODE_NONE Variant._MODE_SECTION []
  = Panic "index out of range".
Proof.
  apply (variant_panics_on_single_digit_line ["  "; ""] " 7 " "7"
           ["ClinicA"; "Main St 1"] Variant._MODE_NONE Variant._MODE_SECTION []).
  - repeat constructor.
  - reflexivity.
  - reflexivity.
Defined.

(** Before the first header the variant stores nothing: blank lines and
    lines that are no header leave [clinics] as it is. *)
Theorem variant_ignores_lines_before_first_header :
  forall (lines : list string) (prevMode0 : Z) (clinics : list Variant.Clinic),
    Forall VariantLines.plain lines ->
    Variant.Parse_loop lines prevMode0 Variant._MODE_NONE clinics = Ok clinics.
Proof.
  intros lines prevMode0 clinics Hall. revert prevMode0.
  induction Hall as [|text rest Hplain _ IH]; intros prevMode0; [reflexivity|].
  destruct (String.eqb (strings.TrimSpace text) "") eqn:Hblank.
  - cbn [Variant.Parse_loop]. rewrite Hblank. apply IH.
  - destruct Hplain as [Hb|Hhead]; [congruence|].
    rewrite (Variant_Parse_loop_step _ _ _ _ _ _ Hblank Hhead). cbn. apply IH.
Qed.

Lemma variant_ignores_lines_before_first_header_witness :
  Variant.Parse_loop ["ClinicA"; ""; "Main St 1"; "555-1234"]
    Variant._MODE_NONE Variant._MODE_NONE []
  = Ok [].
Proof.
  apply (variant_ignores_lines_before_first_header
           ["ClinicA"; ""; "Main St 1"; "555-1234"] Variant._MODE_NONE []).
  repeat constructor; right; reflexivity.
Defined.

(** After a header, lines go in pairs, a name and its address: a section
    of [k] pairs whose names are neither blank nor headers and whose
    addresses are not blank appends the [k] records, in order.  The address
    is taken as it comes: it may look like a header. *)
Theorem variant_section_of_pairs :
  forall (head : string) (pairs : list (string * string)) (prevMode0 mode0 : Z)
         (clinics : list Variant.Clinic),
    String.eqb (strings.TrimSpace head) "" = false ->
    VariantLines.header (strings.TrimSpace head) = Ok true ->
    Forall (fun pair =>
              String.eqb (strings.TrimSpace (fst pair)) "" = false
              /\ VariantLines.header (strings.TrimSpace (fst pair)) = Ok false
              /\ String.eqb (strings.TrimSpace (snd pair)) "" = false) pairs ->
    Variant.Parse_loop
      (head :: flat_map (fun pair => [fst pair; snd pair]) pairs)
      prevMode0 mode0 clinics
    = Ok (clinics
          ++ map (fun pair =>
                    Variant.mkClinic (strings.TrimSpace (fst pair))
                      (strings.TrimSpace (snd pair)) "" []) pairs).
Proof.
  intros head pairs prevMode0 mode0 clinics Hblank Hhead Hpairs.
  rewrite (Variant_Parse_loop_step _ _ _ _ _ _ Hblank Hhead). cbn.
  assert (forall prevMode1 mode1 clinics1,
             (mode1 = Variant._MODE_SECTION \/ mode1 = Variant._MODE_ADDRESS) ->
             Variant.Parse_loop (flat_map (fun pair => [fst pair; snd pair]) pairs)
               prevMode1 mode1 clinics1
             = Ok (clinics1
                   ++ map (fun pair =>
                             Variant.mkClinic (strings.TrimSpace (fst pair))
                               (strings.TrimSpace (snd pair)) "" []) pairs)) as Hloop.
  { clear Hblank Hhead prevMode0 mode0 clinics.
    induction Hpairs as [|[name addr] pairs (Hname & Hnohead & Haddr) _ IH];
      intros prevMode1 mode1 clinics1 Hmode.
    - cbn. rewrite app_nil_r. reflexivity.
    - cbn [flat_map app fst snd map] in *.
      rewrite (Variant_Parse_loop_step _ _ _ _ _ _ Hname Hnohead).
      rewrite Haddr. cbn [negb].
      destruct Hmode as [-> | ->]; cbn; rewrite IH by auto;
        rewrite <- app_assoc; reflexivity. }
  apply Hloop. auto.
Qed.

Lemma variant_section_of_pairs_witness :
  Variant.Parse_loop
    ("1. North" :: flat_map (fun pair => [fst pair; snd pair])
                     [("ClinicA", "Main St 1"); ("ClinicB", "2. Side St")])
    Variant._MODE_NONE Variant._MODE_NONE []
  = Ok ([] ++ map (fun pair =>
                     Variant.mkClinic (strings.TrimSpace (fst pair))
                       (strings.TrimSpace (snd pair)) "" [])
                [("ClinicA", "Main St 1"); ("ClinicB", "2. Side St")]).
Proof.
  apply (variant_section_of_pairs "1. North"
           [("ClinicA", "Main St 1"); ("ClinicB", "2. Side St")]
           Variant._MODE_NONE Variant._MODE_NONE []).
  - reflexivity.
  - reflexivity.
  - repeat constructor.
Defined.

(** ** More on the geocode client *)

Ltac invert_failure Hf :=
  inversion Hf; subst;
  repeat match goal with
    | Ha : Causes.answered _ _ |- _ => destruct Ha as (? & ? & ? & ? & ?)
    end;
  congruence.

(** [doGeocodeClinic] of gen_points.go returns on every record, with an
    error exactly in the eight cases of [Causes.failure] (of two numbers
    that cannot be read it is the first that is reported), and it has made
    one request, for the URL of the address, unless the address is empty. *)
Theorem client_failure_causes :
  forall (P : Platform) (cc : GenPoints.Clinic),
    exists out : outcome GenPoints.Clinic,
      GenPoints.doGeocodeClinic cc = Ok out
      /\ (forall e, returned out = Some e <-> Causes.failure cc e)
      /\ requests out
         = if String.eqb (GenPoints.RawAddress cc) ""
           then [] else [geocode_url (GenPoints.RawAddress cc)].
Proof.
  intros P cc. unfold GenPoints.doGeocodeClinic.
  destruct (String.eqb (GenPoints.RawAddress cc) "") eqn:Haddr.
  { apply String.eqb_eq in Haddr.
    eexists. split; [reflexivity|]. split; [|reflexivity].
    intros e. cbn [returned]. split.
    - intros [= <-]. constructor. exact Haddr.
    - intros Hf. invert_failure Hf. }
  apply String.eqb_neq in Haddr.
  destruct (http_Get (geocode_url (GenPoints.RawAddress cc))) as [msg|resp] eqn:Hget.
  { eexists. split; [reflexivity|]. split; [|reflexivity].
    intros e. cbn [returned]. split.
    - intros [= <-]. apply Causes.transport; assumption.
    - intros Hf. invert_failure Hf. }
  destruct (Z.eqb (StatusCode resp) StatusOK) eqn:Hstatus; cbn [negb].
  2:{ apply Z.eqb_neq in Hstatus.
      eexists. split; [reflexivity|]. split; [|reflexivity].
      intros e. cbn [returned]. split.
      - intros [= <-]. apply Causes.bad_status; assumption.
      - intros Hf. invert_failure Hf. }
  apply Z.eqb_eq in Hstatus.
  destruct (json_Decode (Body resp)) as [msg|geoResp] eqn:Hdecode.
  { eexists. split; [reflexivity|]. split; [|reflexivity].
    intros e. cbn [returned]. split.
    - intros [= <-]. eapply Causes.undecodable; eassumption.
    - intros Hf. invert_failure Hf. }
  assert (Causes.answered cc geoResp) as Hanswered by (exists resp; auto).
  destruct (FeatureMember geoResp) as [|first rest] eqn:Hmembers;
    cbn [List.length Nat.eqb nth_error].
  { eexists. split; [reflexivity|]. split; [|reflexivity].
    intros e. cbn [returned]. split.
    - intros [= <-]. apply Causes.no_result; assumption.
    - intros Hf. invert_failure Hf. }
  unfold strings.SplitN_space_2.
  destruct (strings.cut_space (Pos first)) as [[raw0 raw1]|] eqn:Hcut.
  2:{ eexists. split; [reflexivity|]. split; [|reflexivity].
      intros e. cbn [returned]. split.
      - intros [= <-]. eapply Causes.one_token; eassumption.
      - intros Hf. invert_failure Hf. }
  destruct (ParseFloat (strings.TrimSpace raw0)) as [msg|lat] eqn:Hlat.
  { eexists. split; [reflexivity|]. split; [|reflexivity].
    intros e. cbn [returned]. split.
    - intros [= <-]. eapply Causes.bad_first_number; eassumption.
    - intros Hf. invert_failure Hf. }
  destruct (ParseFloat (strings.TrimSpace raw1)) as [msg|long] eqn:Hlong.
  { eexists. split; [reflexivity|]. split; [|reflexivity].
    intros e. cbn [returned]. split.
    - intros [= <-]. eapply Causes.bad_second_number; eassumption.
    - intros Hf. invert_failure Hf. }
  eexists. split; [reflexivity|]. split; [|reflexivity].
  intros e. cbn [returned]. split.
  - discriminate.
  - intros Hf. invert_failure Hf.
Qed.

Lemma cut_space_none (s : string) :
  strings.cut_space s = None <-> ~ In " "%char (list_ascii_of_string s).
Proof.
  induction s as [|c s IH]; cbn [strings.cut_space list_ascii_of_string].
  - split; [intros _ [] | reflexivity].
  - destruct (Ascii.eqb c " ") eqn:Hc.
    + apply Ascii.eqb_eq in Hc. subst. split; [discriminate|].
      intros Hnot. exfalso. apply Hnot. left. reflexivity.
    + apply Ascii.eqb_neq in Hc.
      destruct (strings.cut_space s) as [[a b]|].
      * split; [discriminate|]. intros Hnot. exfalso.
        assert (~ In " "%char (list_ascii_of_string s)) as Hs
            by (intros Hin; apply Hnot; right; exact Hin).
        apply IH in Hs. discriminate.
      * split; [|reflexivity]. intros _ [Heq|Hin]; [congruence|].
        destruct IH as [IH _]. apply (IH eq_refl Hin).
Qed.

Lemma cut_space_at_first (a b : string) :
  ~ In " "%char (list_ascii_of_string a) ->
  strings.cut_space (a ++ String " " b)%string = Some (a, b).
Proof.
  induction a as [|c a IH]; cbn [append strings.cut_space list_ascii_of_string];
    intros Hnot.
  - reflexivity.
  - destruct (Ascii.eqb c " ") eqn:Hc.
    + apply Ascii.eqb_eq in Hc. subst. exfalso. apply Hnot. left. reflexivity.
    + rewrite IH; [reflexivity|]. intros Hin. apply Hnot. right. exact Hin.
Qed.

(** Of the coordinate string of the first result: the token count is found
    wrong only when the string holds no space; otherwise the string is cut
    at its first space, and the call succeeds exactly when what stands
    before it and all that stands after it, spaces and further tokens
    included, are read as two numbers. *)
Theorem coordinate_string_is_cut_at_first_space :
  forall (P : Platform) (cc : GenPoints.Clinic) (geoResp : geocodeResponse)
         (first : geoObject) (rest : list geoObject),
    Causes.answered cc geoResp ->
    FeatureMember geoResp = first :: rest ->
    exists out : outcome GenPoints.Clinic,
      GenPoints.doGeocodeClinic cc = Ok out
      /\ (returned out = Some (ErrBadPoints (Pos first))
          <-> ~ In " "%char (list_ascii_of_string (Pos first)))
      /\ (forall a b : string,
            ~ In " "%char (list_ascii_of_string a) ->
            Pos first = (a ++ String " " b)%string ->
            (returned out = None
             <-> exists lat long,
                 ParseFloat (strings.TrimSpace a) = inr lat
                 /\ ParseFloat (strings.TrimSpace b) = inr long)).
Proof.
  intros P cc geoResp first rest (resp & Haddr & Hget & Hstatus & Hdecode) Hmembers.
  unfold GenPoints.doGeocodeClinic.
  apply String.eqb_neq in Haddr. rewrite Haddr, Hget, Hstatus, Hdecode, Hmembers.
  cbn [Z.eqb StatusOK Pos.eqb negb List.length Nat.eqb nth_error].
  unfold strings.SplitN_space_2.
  destruct (strings.cut_space (Pos first)) as [[raw0 raw1]|] eqn:Hcut.
  - assert (~ ~ In " "%char (list_ascii_of_string (Pos first))) as Hspace.
    { intros Hnot. apply cut_space_none in Hnot. congruence. }
    assert (forall a b,
               ~ In " "%char (list_ascii_of_string a) ->
               Pos first = (a ++ String " " b)%string -> raw0 = a /\ raw1 = b) as Hparts.
    { intros a b Ha Hpos. rewrite Hpos, (cut_space_at_first a b Ha) in Hcut.
      injection Hcut as <- <-. auto. }
    destruct (ParseFloat (strings.TrimSpace raw0)) as [msg|lat] eqn:Hlat;
      [|destruct (ParseFloat (strings.TrimSpace raw1)) as [msg|long] eqn:Hlong];
      (eexists; split; [reflexivity|]; cbn [returned]; split;
       [split; [discriminate | intros Hnot; contradiction]|]);
      intros a b Ha Hpos; destruct (Hparts a b Ha Hpos) as [<- <-];
      (split; [try discriminate | intros (lat' & long' & Hlat' & Hlong'); congruence]).
    intros _. eauto.
  - eexists. split; [reflexivity|]. cbn [returned]. split.
    + split; [intros _; apply cut_space_none; exact Hcut | reflexivity].
    + intros a b Ha Hpos. rewrite Hpos, (cut_space_at_first a b Ha) in Hcut.
      discriminate.
Qed.

Lemma coordinate_string_is_cut_at_first_space_witness :
  exists out : outcome GenPoints.Clinic,
    @GenPoints.doGeocodeClinic (Stub.one_result "37.6 55.75 12" "Main St 1, Springfield")
      (GenPoints.mkClinic "ClinicA" "Main St 1" "" "" []) = Ok out
    /\ (returned out = Some (ErrBadPoints "37.6 55.75 12")
        <-> ~ In " "%char (list_ascii_of_string "37.6 55.75 12"))
    /\ (forall a b : string,
          ~ In " "%char (list_ascii_of_string a) ->
          "37.6 55.75 12" = (a ++ String " " b)%string ->
          (returned out = None
           <-> exists lat long,
               strconv.ParseFloat32 (strings.TrimSpace a) = inr lat
               /\ strconv.ParseFloat32 (strings.TrimSpace b) = inr long)).
Proof.
  apply (coordinate_string_is_cut_at_first_space
           (Stub.one_result "37.6 55.75 12" "Main St 1, Springfield")
           (GenPoints.mkClinic "ClinicA" "Main St 1" "" "" [])
           (mkGeocodeResponse [mkGeoObject "" "" "Main St 1, Springfield" "37.6 55.75 12"])
           (mkGeoObject "" "" "Main St 1, Springfield" "37.6 55.75 12") []).
  - exists (mkResponse StatusOK "status" "body").
    repeat split; try reflexivity. discriminate.
  - reflexivity.
Defined.

(** In both files only the first result of the answer is looked at: with a
    decoder that drops all results after the first, the call leaves the same
    record, makes the same request and fails or succeeds alike (the variant
    panics alike). *)
Theorem only_first_result_is_used :
  forall (P : Platform),
    (forall cc : GenPoints.Clinic,
        exists out out' : outcome GenPoints.Clinic,
          @GenPoints.doGeocodeClinic P cc = Ok out
          /\ @GenPoints.doGeocodeClinic (Causes.first_only P) cc = Ok out'
          /\ record out = record out'
          /\ requests out = requests out'
          /\ (returned out = None <-> returned out' = None))
    /\ (forall cc : Variant.Clinic,
        (exists msg,
            @Variant.doGeocodeClinic P cc = Panic msg
            /\ @Variant.doGeocodeClinic (Causes.first_only P) cc = Panic msg)
        \/ (exists out out' : outcome Variant.Clinic,
               @Variant.doGeocodeClinic P cc = Ok out
               /\ @Variant.doGeocodeClinic (Causes.first_only P) cc = Ok out'
               /\ record out = record out'
               /\ requests out = requests out'
               /\ (returned out = None <-> returned out' = None))).
Proof.
  intros P. split; intros cc.
  - unfold GenPoints.doGeocodeClinic.
    cbn [Causes.first_only http_Get json_Decode ParseFloat].
    destruct (String.eqb (GenPoints.RawAddress cc) "");
      [eexists _, _; repeat split; intros; discriminate|].
    destruct (@http_Get P (geocode_url (GenPoints.RawAddress cc))) as [msg|resp];
      [eexists _, _; repeat split; intros; discriminate|].
    destruct (negb (StatusCode resp =? StatusOK)%Z);
      [eexists _, _; repeat split; intros; discriminate|].
    destruct (@json_Decode P (Body resp)) as [msg|geoResp];
      [eexists _, _; repeat split; intros; discriminate|].
    destruct (FeatureMember geoResp) as [|first rest];
      cbn [firstn FeatureMember List.length Nat.eqb nth_error];
      [eexists _, _; repeat split; intros; discriminate|].
    destruct (strings.SplitN_space_2 (Pos first)) as [|raw0 [|raw1 [|raw2 more]]];
      try (eexists _, _; repeat split; intros; discriminate).
    destruct (@ParseFloat P (strings.TrimSpace raw0)) as [msg|lat];
      [eexists _, _; repeat split; intros; discriminate|].
    destruct (@ParseFloat P (strings.TrimSpace raw1)) as [msg|long];
      [eexists _, _; repeat split; intros; discriminate|].
    eexists _, _; repeat split; intros; reflexivity.
  - unfold Variant.doGeocodeClinic.
    cbn [Causes.first_only http_Get json_Decode ParseFloat].
    destruct (@http_Get P (geocode_url (Variant.RawAddress cc))) as [msg|resp];
      [right; eexists _, _; repeat split; intros; discriminate|].
    destruct (negb (StatusCode resp =? StatusOK)%Z);
      [right; eexists _, _; repeat split; intros; discriminate|].
    destruct (@json_Decode P (Body resp)) as [msg|geoResp];
      [right; eexists _, _; repeat split; intros; discriminate|].
    destruct (FeatureMember geoResp) as [|first rest];
      cbn [firstn FeatureMember nth_error]; [left; eauto|].
    right.
    destruct (strings.SplitN_space_2 (Pos first)) as [|raw0 [|raw1 [|raw2 more]]];
      try (eexists _, _; repeat split; intros; discriminate).
    destruct (@ParseFloat P (strings.TrimSpace raw0)) as [msg|p1];
      [eexists _, _; repeat split; intros; discriminate|].
    destruct (@ParseFloat P (strings.TrimSpace raw1)) as [msg|p2];
      [eexists _, _; repeat split; intros; discriminate|].
    eexists _, _; repeat split; intros; reflexivity.
Qed.

(** ** More on the dispatcher *)

Lemma count_app {A : Type} (f : A -> bool) (l1 l2 : list A) :
  Dispatcher.count f (l1 ++ l2) = Dispatcher.count f l1 + Dispatcher.count f l2.
Proof.
  unfold Dispatcher.count. rewrite filter_app, length_app. reflexivity.
Qed.

Lemma upd_middle {A : Type} (x y : A) (l1 l2 : list A) :
  Dispatcher.upd (List.length l1) x (l1 ++ y :: l2) = l1 ++ x :: l2.
Proof.
  induction l1 as [|h t IH]; cbn; [reflexivity | rewrite IH; reflexivity].
Qed.

Lemma nth_error_middle {A : Type} (y : A) (l1 l2 : list A) :
  nth_error (l1 ++ y :: l2) (List.length l1) = Some y.
Proof.
  induction l1 as [|h t IH]; cbn; [reflexivity | exact IH].
Qed.

Lemma repeat_snoc {A : Type} (a : A) (k : nat) (l : list A) :
  repeat a k ++ a :: l = repeat a (S k) ++ l.
Proof.
  induction k as [|k IH]; cbn; [reflexivity | rewrite IH; reflexivity].
Qed.

Lemma upd_after_repeat {A : Type} (a x y : A) (k : nat) (l : list A) :
  Dispatcher.upd k x (repeat a k ++ y :: l) = repeat a k ++ x :: l.
Proof.
  rewrite <- (repeat_length a k) at 1. apply upd_middle.
Qed.

Lemma nth_error_after_repeat {A : Type} (a y : A) (k : nat) (l : list A) :
  nth_error (repeat a k ++ y :: l) k = Some y.
Proof.
  rewrite <- (repeat_length a k) at 2. apply nth_error_middle.
Qed.

Section DispatcherMore.
Variable Clinic : Type.
Variable doGeocodeClinic : Clinic -> go (outcome Clinic).

Local Abbreviation step := (Dispatcher.step doGeocodeClinic).
Local Abbreviation reachable := (Dispatcher.reachable doGeocodeClinic).

(** The state in which the first [k] goroutines are inside
    [doGeocodeClinic] and the loop is about to start the next one is
    reached, for [k] up to the capacity of [limiter]. *)
Lemma fan_out (clinics : list Clinic) (k : nat) :
  k <= List.length clinics -> k <= Dispatcher.capacity ->
  reachable clinics
    (Dispatcher.mkState Clinic Dispatcher.AtLoop k k (Z.of_nat k)
       (repeat Dispatcher.Calling k
        ++ repeat Dispatcher.NotStarted (List.length clinics - k))
       clinics
       (repeat 1 k ++ repeat 0 (List.length clinics - k)) [] false).
Proof.
  induction k as [|k IH]; intros Hlen Hcap.
  - cbn [repeat app Z.of_nat]. rewrite Nat.sub_0_r. apply Dispatcher.reach_init.
  - specialize (IH ltac:(lia) ltac:(lia)).
    assert (List.length clinics - k = S (List.length clinics - S k)) as Hsub by lia.
    rewrite Hsub in IH. cbn [repeat] in IH.
    set (later := List.length clinics - S k) in *.
    assert (k < List.length clinics) as Hlt by lia.
    assert (k < Dispatcher.capacity) as Hroom by lia.
    assert (exists st, reachable clinics st /\ st =
              Dispatcher.mkState Clinic Dispatcher.AtLoop (S k) (S k) (Z.of_nat k + 1)
                (Dispatcher.upd k Dispatcher.Spawned
                   (repeat Dispatcher.Calling k
                    ++ Dispatcher.NotStarted :: repeat Dispatcher.NotStarted later))
                clinics (repeat 1 k ++ 0 :: repeat 0 later) [] false)
      as (stC & HC & ->).
    { eexists. split; [|reflexivity].
      eapply Dispatcher.reach_step;
        [eapply Dispatcher.reach_step; [eapply Dispatcher.reach_step; [exact IH|]|]|].
      - apply Dispatcher.main_add; [reflexivity | reflexivity | exact Hlt].
      - apply Dispatcher.main_send; [reflexivity | reflexivity | exact Hroom].
      - apply (Dispatcher.main_go Clinic doGeocodeClinic
                 (Dispatcher.mkState Clinic Dispatcher.AtGo k (S k) (Z.of_nat k + 1)
                    (repeat Dispatcher.Calling k
                     ++ Dispatcher.NotStarted :: repeat Dispatcher.NotStarted later)
                    clinics (repeat 1 k ++ 0 :: repeat 0 later) [] false));
          reflexivity. }
    rewrite upd_after_repeat in HC.
    assert (reachable clinics
              (Dispatcher.mkState Clinic Dispatcher.AtLoop (S k) (S k) (Z.of_nat k + 1)
                 (Dispatcher.upd k Dispatcher.Calling
                    (repeat Dispatcher.Calling k
                     ++ Dispatcher.Spawned :: repeat Dispatcher.NotStarted later))
                 clinics
                 (Dispatcher.upd k 1 (repeat 1 k ++ 0 :: repeat 0 later)) [] false))
      as HD.
    { eapply Dispatcher.reach_step; [exact HC|].
      apply (Dispatcher.g_enter Clinic doGeocodeClinic
               (Dispatcher.mkState Clinic Dispatcher.AtLoop (S k) (S k) (Z.of_nat k + 1)
                  (repeat Dispatcher.Calling k
                   ++ Dispatcher.Spawned :: repeat Dispatcher.NotStarted later)
                  clinics (repeat 1 k ++ 0 :: repeat 0 later) [] false) k 0).
      - reflexivity.
      - apply nth_error_after_repeat.
      - apply nth_error_after_repeat. }
    rewrite !upd_after_repeat, !repeat_snoc in HD.
    replace (Z.of_nat k + 1)%Z with (Z.of_nat (S k)) in HD by lia.
    exact HD.
Qed.

Local Abbreviation finished st i :=
  (exists ph, nth_error (Dispatcher.phases st) i = Some ph
              /\ Dispatcher.after_call ph = true).

Local Abbreviation reports clinics st :=
  (NoDup (map fst (Dispatcher.stderr st))
   /\ (forall i e,
         In (i, e) (Dispatcher.stderr st)
         <-> finished st i
             /\ exists cc out, nth_error clinics i = Some cc
                               /\ doGeocodeClinic cc = Ok out
                               /\ returned out = Some e)
   /\ (forall i cc, finished st i -> nth_error clinics i = Some cc ->
                    exists out, doGeocodeClinic cc = Ok out)).







(** When [wg.Wait()] has returned the channel is empty, the counter is zero
    and no goroutine has a step left: nothing writes to the records while
    [main] encodes them. *)
Theorem nothing_runs_after_return :
  forall (clinics : list Clinic) (st : Dispatcher.state Clinic),
    reachable clinics st ->
    Dispatcher.pc st = Dispatcher.Returned ->
    Dispatcher.limiter st = 0
    /\ Dispatcher.wg st = 0%Z
    /\ forall st', ~ step st st'.
Proof.
  intros clinics st Hreach Hret.
  pose proof (reachable_inv _ _ _ _ Hreach) as Hinv.
  pose proof Hinv as [_ _ _ _ _ _ Hlim _ _ Hpc _ _].
  pose proof (returned_all_finished _ doGeocodeClinic clinics st) as Hfin.
  rewrite Hret in Hlim, Hpc. split; [|split; [apply Hpc|]].
  - destruct (Dispatcher.count Dispatcher.holds_slot (Dispatcher.phases st)) eqn:Hc;
      [lia|].
    destruct (count_find Dispatcher.holds_slot (Dispatcher.phases st))
      as (i & ph & Hph & Hslot); [lia|].
    rewrite (Hfin _ _ Hinv Hret Hph) in Hslot. discriminate.
  - intros st' Hstep.
    destruct Hstep as
      [ st _ Hat _ | st _ Hat _ | st _ Hat | st _ Hat _ | st _ Hat _
      | st i k _ Hph _ | st i cc out _ Hph _ _ | st i cc msg _ Hph _ _
      | st i _ Hph _ | st i _ Hph _ | st i _ Hph _ ];
      try congruence;
      pose proof (Hfin _ _ Hinv Hret Hph); discriminate.
Qed.

(** The ceiling is reached: there is a run in which as many calls are in
    flight at once as there are records, up to 10; with more records than
    10 the main goroutine then stands at the send on [limiter], and every
    step that can be taken leaves it there, at the same record. *)
Theorem ceiling_is_reached :
  forall (clinics : list Clinic),
    exists st : Dispatcher.state Clinic,
      reachable clinics st
      /\ Dispatcher.in_flight st = Nat.min (List.length clinics) 10
      /\ (10 < List.length clinics ->
          Dispatcher.pc st = Dispatcher.AtSend
          /\ forall st', step st st' ->
               Dispatcher.pc st' = Dispatcher.AtSend
               /\ Dispatcher.next st' = Dispatcher.next st).
Proof.
  intros clinics.
  assert (forall k, Dispatcher.count Dispatcher.is_calling
                      (repeat Dispatcher.Calling k
                       ++ repeat Dispatcher.NotStarted (List.length clinics - k)) = k)
    as Hcount.
  { intros k. rewrite count_app, !count_repeat. cbn. lia. }
  destruct (Nat.le_gt_cases (List.length clinics) 10) as [Hfew|Hmany].
  - eexists. split; [apply (fan_out clinics (List.length clinics)); [lia | exact Hfew]|].
    split; [|lia]. unfold Dispatcher.in_flight. cbn [Dispatcher.phases].
    rewrite Hcount. lia.
  - pose proof (fan_out clinics 10 ltac:(lia) (le_n _)) as Hten.
    eexists. split.
    { eapply Dispatcher.reach_step; [exact Hten|].
      apply Dispatcher.main_add; cbn; [reflexivity | reflexivity | lia]. }
    split.
    { unfold Dispatcher.in_flight. cbn [Dispatcher.phases]. rewrite Hcount. lia. }
    intros _. split; [reflexivity|].
    intros st' Hstep. inversion Hstep; subst; cbn in *; try discriminate; auto.
    unfold Dispatcher.capacity in *. lia.
Qed.

End DispatcherMore.


Lemma nothing_runs_after_return_witness :
  exists st : Dispatcher.state GenPoints.Clinic,
    Dispatcher.reachable (@GenPoints.doGeocodeClinic Stub.no_result)
      [GenPoints.mkClinic "ClinicA" "Main St 1" "" "" []] st
    /\ Dispatcher.pc st = Dispatcher.Returned
    /\ Dispatcher.limiter st = 0
    /\ Dispatcher.wg st = 0%Z
    /\ forall st', ~ Dispatcher.step (@GenPoints.doGeocodeClinic Stub.no_result) st st'.
Proof.
  destruct (init_completes GenPoints.Clinic (@GenPoints.doGeocodeClinic Stub.no_result)
              [GenPoints.mkClinic "ClinicA" "Main St 1" "" "" []])
    as (st & Hreach & Hret).
  { intros cc _. apply GenPoints_doGeocodeClinic_returns. }
  exists st. split; [exact Hreach|]. split; [exact Hret|].
  apply (nothing_runs_after_return GenPoints.Clinic _ _ st Hreach Hret).
Defined.



(** ** The end of [main] *)

(** Of the output, in both files: when the run with [-format json] exits,
    it has written the buffer of the encoder, to the file named by [-out]
    or to standard output for [""] and ["-"]; the run with [-format js]
    writes the same bytes after ["data = "] to the same place; and with any
    other format the same file is made, nothing is written to it, and the
    format is reported on [os.Stderr]. *)
Theorem output_formats :
  forall (Clinic : Type) (json_Encode : list Clinic -> string + string)
         (os_Create : string -> option string) (outFile : string)
         (clinics : list Clinic) (e : Output.effects),
    Output.main_output json_Encode os_Create outFile "json" clinics = Output.Exit e ->
    json_Encode clinics = inr (Output.written e)
    /\ Output.created e
       = (if String.eqb outFile "" || String.eqb outFile "-" then None else Some outFile)
    /\ Output.main_output json_Encode os_Create outFile "js" clinics
       = Output.Exit
           (Output.mkEffects (Output.created e) ("data = " ++ Output.written e)%string None)
    /\ (forall outFormat,
          outFormat <> "js" -> outFormat <> "json" ->
          Output.main_output json_Encode os_Create outFile outFormat clinics
          = Output.Exit (Output.mkEffects (Output.created e) "" (Some outFormat))).
Proof.
  intros Clinic json_Encode os_Create outFile clinics e.
  unfold Output.main_output.
  destruct (json_Encode clinics) as [msg|buf]; [discriminate|].
  destruct (String.eqb outFile ""), (String.eqb outFile "-"); cbn [negb andb orb];
    try destruct (os_Create outFile); try discriminate;
    cbn; intros [= <-]; cbn; repeat split;
    intros outFormat Hjs Hjson;
    apply String.eqb_neq in Hjs; apply String.eqb_neq in Hjson;
    rewrite Hjs, Hjson; reflexivity.
Qed.

Lemma output_formats_witness :
  Output.main_output (fun _ : list GenPoints.Clinic => inr "[]") (fun _ => None)
    "points.js" "js" []
  = Output.Exit (Output.mkEffects (Some "points.js") "data = []" None).
Proof.
  apply (output_formats GenPoints.Clinic (fun _ => inr "[]") (fun _ => None)
           "points.js" [] (Output.mkEffects (Some "points.js") "[]" None)).
  reflexivity.
Defined.

(** ** The request *)

Lemma geocode_url_shape (address : string) :
  geocode_url address
  = ("https://geocode-maps.yandex.ru/1.x/?format=json&geocode="
     ++ url.QueryEscape address ++ "&kind=house&lang=ru_RU")%string.
Proof. reflexivity. Qed.

(** One byte, escaped and read back. *)
Lemma QueryEscape_head (c : ascii) (s : string) :
  urlcheck.QueryUnescape (url.QueryEscape (String c s))
  = match urlcheck.QueryUnescape (url.QueryEscape s) with
    | Some t => Some (String c t)
    | None => None
    end.
Proof.
  destruct c as [[] [] [] [] [] [] [] []]; reflexivity.
Qed.

Lemma QueryEscape_round_trip (s : string) :
  urlcheck.QueryUnescape (url.QueryEscape s) = Some s.
Proof.
  induction s as [|c s IH]; [reflexivity|].
  rewrite QueryEscape_head, IH. reflexivity.
Qed.

(** What an escaped byte is made of. *)
Lemma QueryEscape_bytes (s : string) :
  Forall (fun c => url.unreserved c = true \/ c = "+"%char \/ c = "%"%char)
    (list_ascii_of_string (url.QueryEscape s)).
Proof.
  induction s as [|c s IH]; [constructor|].
  destruct c as [[] [] [] [] [] [] [] []];
    cbn [url.QueryEscape list_ascii_of_string]; cbn;
    repeat (constructor; [auto|]); exact IH.
Qed.

Lemma append_cancel_l (p x y : string) : (p ++ x = p ++ y)%string -> x = y.
Proof.
  induction p as [|c p IH]; cbn; [auto|]. intros [= H]. auto.
Qed.

Lemma append_as_lists (x y : string) :
  list_ascii_of_string (x ++ y) = list_ascii_of_string x ++ list_ascii_of_string y.
Proof.
  induction x as [|c x IH]; cbn; [reflexivity | rewrite IH; reflexivity].
Qed.

Lemma append_cancel_r (x y t : string) : (x ++ t = y ++ t)%string -> x = y.
Proof.
  intros Heq. apply (f_equal list_ascii_of_string) in Heq.
  rewrite !append_as_lists in Heq. apply app_inv_tail in Heq.
  rewrite <- (string_of_list_ascii_of_string x), <- (string_of_list_ascii_of_string y).
  congruence.
Qed.

(** The URL carries the address whole and keeps it in its place: the value
    of [geocode] is made of unreserved bytes, [+] and [%] only, so that it
    holds no [&], [=] or [#] of its own, it reads back as the address, and
    two addresses that differ are requested at URLs that differ. *)
Theorem geocode_url_carries_the_address :
  forall address : string,
    exists value : string,
      geocode_url address
      = ("https://geocode-maps.yandex.ru/1.x/?format=json&geocode="
         ++ value ++ "&kind=house&lang=ru_RU")%string
      /\ Forall (fun c => url.unreserved c = true \/ c = "+"%char \/ c = "%"%char)
           (list_ascii_of_string value)
      /\ urlcheck.QueryUnescape value = Some address
      /\ forall address', geocode_url address = geocode_url address' ->
                          address = address'.
Proof.
  intros address. exists (url.QueryEscape address).
  split; [apply geocode_url_shape|].
  split; [apply QueryEscape_bytes|].
  split; [apply QueryEscape_round_trip|].
  intros address' Heq. rewrite !geocode_url_shape in Heq.
  apply append_cancel_l, append_cancel_r in Heq.
  apply (f_equal urlcheck.QueryUnescape) in Heq.
  rewrite !QueryEscape_round_trip in Heq. congruence.
Qed.

(** ** The whole of gen_points.go, up to the encoder *)

